(** * I2C master / slave example (XMC USIC): the two interrupt handlers and main

    A shallow embedding of [main.c].  The program is three functions that
    talk to the vendor peripheral library: [SysTick_Handler] (the periodic
    command sender), [I2C_SLAVE_RECEIVE_EVENT_HANDLER] (the command
    receiver) and [main].  Each is written as a computation in a small
    state monad over a [World] that holds the program's static variables,
    the LED pin, and the chronological list of calls made into the vendor
    library.  Busy-wait loops carry a step budget; a loop that is still
    waiting when the budget is spent yields [Spin]. *)

From Stdlib Require Import ZArith List Bool Arith Lia.
Import ListNotations.
Local Open Scope Z_scope.

(** ** Defines (main.c, lines 52-63) *)

Definition TICKS_PER_SECOND : Z := 1000.
Definition I2C_MASTER_SEND_TASK_MS : Z := 500.
Definition CMD_LED_HIGH : Z := 0xaa.
Definition CMD_LED_LOW : Z := 0x55.
Definition I2C_RECEIVE_EVENT_PRIORITY : Z := 63.

(** Conversions to the C types [uint8_t] and [uint32_t]. *)
Definition uint8 (z : Z) : Z := z mod 2 ^ 8.
Definition uint32 (z : Z) : Z := z mod 2 ^ 32.

(** ** Names generated by the device configurator and the vendor headers *)

(** The two USIC channels the example configures. *)
Inductive channel : Type := I2C_MASTER_HW | I2C_SLAVE_HW.

(** The read/write bit of an I2C address byte ([XMC_I2C_CH_CMD_t]). *)
Inductive XMC_I2C_CH_CMD : Type := XMC_I2C_CH_CMD_WRITE | XMC_I2C_CH_CMD_READ.

(** The GPIO port and pin of the user LED, and the slave's receive IRQ. *)
Inductive gpio_port : Type := CYBSP_USER_LED_PORT.
Inductive gpio_pin : Type := CYBSP_USER_LED_PIN.
Inductive irqn : Type := I2C_SLAVE_RECEIVE_EVENT_IRQN.

(** Values fixed outside [main.c] (configurator output, vendor headers, the
    CMSIS clock variable); the development is parametric in them. *)
Record Platform : Type := mkPlatform {
  I2C_SLAVE_SLAVE_ADDRESS : Z;
  XMC_I2C_CH_STATUS_FLAG_ACK_RECEIVED : Z;
  CY_RSLT_SUCCESS : Z;
  SystemCoreClock : Z;
  NVIC_EncodePriority : Z -> Z -> Z -> Z
}.

(** What the hardware answers.  Register reads are numbered: the [n]-th
    read of a channel's status register returns [PSR_IICMode ch n], the
    [n]-th look at its transmit FIFO returns [TXFIFO_empty ch n]. *)
Record Hardware : Type := mkHardware {
  PSR_IICMode : channel -> nat -> Z;
  TXFIFO_empty : channel -> nat -> bool;
  cybsp_init_result : Z;
  priority_grouping : Z
}.

(** ** Calls into the vendor library, as recorded in the world *)

Inductive call : Type :=
| EvMasterStart (ch : channel) (addr : Z) (cmd : XMC_I2C_CH_CMD)
| EvGetStatusFlag (ch : channel) (ret : Z)
| EvClearStatusFlag (ch : channel) (flag : Z)
| EvMasterTransmit (ch : channel) (data : Z)
| EvTXFIFO_IsEmpty (ch : channel) (ret : bool)
| EvMasterStop (ch : channel)
| EvGetReceivedData (ch : channel) (ret : Z)
| EvSetOutputHigh (port : gpio_port) (pin : gpio_pin)
| EvSetOutputLow (port : gpio_port) (pin : gpio_pin)
| EvCybspInit (ret : Z)
| EvGetPriorityGrouping (ret : Z)
| EvSetPriority (irq : irqn) (prio : Z)
| EvEnableIRQ (irq : irqn)
| EvSysTickConfig (reload : Z).

(** ** The world *)

Record World : Type := mkWorld {
  (** line 69: the file-scope [static volatile uint32_t ticks] *)
  file_ticks : Z;
  (** line 89: [static uint8_t tx_master_send] of [SysTick_Handler] *)
  tx_master_send : Z;
  (** line 90: [static uint32_t ticks] of [SysTick_Handler] *)
  ticks : Z;
  (** output level of the pin CYBSP_USER_LED_PORT / CYBSP_USER_LED_PIN *)
  USER_LED : bool;
  (** receive buffer of the slave channel: the byte the bus delivered *)
  RBUF : Z;
  (** number of status / FIFO reads made so far *)
  now : nat;
  (** every call into the vendor library so far, oldest first *)
  calls : list call
}.

Definition set_file_ticks (v : Z) (w : World) : World :=
  mkWorld v (tx_master_send w) (ticks w) (USER_LED w) (RBUF w) (now w) (calls w).
Definition set_tx_master_send (v : Z) (w : World) : World :=
  mkWorld (file_ticks w) v (ticks w) (USER_LED w) (RBUF w) (now w) (calls w).
Definition set_ticks (v : Z) (w : World) : World :=
  mkWorld (file_ticks w) (tx_master_send w) v (USER_LED w) (RBUF w) (now w) (calls w).
Definition set_USER_LED (v : bool) (w : World) : World :=
  mkWorld (file_ticks w) (tx_master_send w) (ticks w) v (RBUF w) (now w) (calls w).
Definition set_RBUF (v : Z) (w : World) : World :=
  mkWorld (file_ticks w) (tx_master_send w) (ticks w) (USER_LED w) v (now w) (calls w).
Definition set_now (v : nat) (w : World) : World :=
  mkWorld (file_ticks w) (tx_master_send w) (ticks w) (USER_LED w) (RBUF w) v (calls w).
Definition set_calls (v : list call) (w : World) : World :=
  mkWorld (file_ticks w) (tx_master_send w) (ticks w) (USER_LED w) (RBUF w) (now w) v.

(** Appending one call to the record of calls. *)
Definition log (c : call) (w : World) : World := set_calls (calls w ++ [c]) w.

(** The state at power-on: the initialisers of lines 69, 89 and 90, the
    LED pin taken to be low, nothing called yet. *)
Definition power_on : World :=
  mkWorld 0 CMD_LED_LOW 0 false 0 0%nat [].

(** The bus delivers byte [b] into the slave's receive buffer. *)
Definition deliver (b : Z) (w : World) : World := set_RBUF b w.

(** ** The monad *)

Inductive Outcome (A : Type) : Type :=
| Done (a : A) (w : World)   (** the computation returned [a] *)
| Spin (w : World)           (** still inside a busy-wait loop *)
| Halted (w : World).        (** stopped for good by a failed assertion *)
Arguments Done {A} a w.
Arguments Spin {A} w.
Arguments Halted {A} w.

Definition M (A : Type) : Type := World -> Outcome A.

Definition ret {A : Type} (a : A) : M A := fun w => Done a w.

Definition bind {A B : Type} (m : M A) (k : A -> M B) : M B :=
  fun w =>
    match m w with
    | Done a w' => k a w'
    | Spin w' => Spin w'
    | Halted w' => Halted w'
    end.

Notation "x <- m ;; k" := (bind m (fun x => k))
  (at level 61, m at next level, right associativity).
Notation "m ;; k" := (bind m (fun _ => k))
  (at level 61, right associativity).

Definition skip : M unit := ret tt.
Definition get {A : Type} (f : World -> A) : M A := fun w => Done (f w) w.
Definition modify (f : World -> World) : M unit := fun w => Done tt (f w).

(** The world an outcome ends in, and a change applied to it. *)
Definition world_of {A : Type} (o : Outcome A) : World :=
  match o with Done _ w => w | Spin w => w | Halted w => w end.

Definition map_world {A : Type} (f : World -> World) (o : Outcome A) : Outcome A :=
  match o with
  | Done a w => Done a (f w)
  | Spin w => Spin (f w)
  | Halted w => Halted (f w)
  end.

(** [while (cond) body], allowed [fuel] evaluations of [cond]. *)
Fixpoint while_ (fuel : nat) (cond : M bool) (body : M unit) : M unit :=
  match fuel with
  | O => fun w => Spin w
  | S fuel' =>
      b <- cond ;;
      if b then body ;; while_ fuel' cond body else ret tt
  end.

(** ** Example platform and hardware, for running the model *)

(** Slave address 0x60, the acknowledge flag at bit 9 of the status
    register, success code 0, a 120 MHz core clock, and a priority encoding
    that keeps the preemption priority. *)
Definition example_platform : Platform :=
  mkPlatform 0x60 0x200 0 120000000 (fun _ preempt _ => preempt).

(** Hardware that shows the acknowledge flag and an empty FIFO at once. *)
Definition prompt_hw : Hardware :=
  mkHardware (fun _ _ => 0x200) (fun _ _ => true) 0 0.

(** Hardware that shows them at every third read only. *)
Definition slow_hw : Hardware :=
  mkHardware (fun _ n => if (n mod 3 =? 2)%nat then 0x200 else 0)
             (fun _ n => (n mod 3 =? 2)%nat) 0 0.

(** A slave that never acknowledges. *)
Definition mute_hw : Hardware :=
  mkHardware (fun _ _ => 0) (fun _ _ => false) 0 0.

(** A board whose bring-up fails. *)
Definition broken_board : Hardware :=
  mkHardware (fun _ _ => 0x200) (fun _ _ => true) 1 0.

(** One invocation short of the first send. *)
Definition before_send : World := set_ticks 499 power_on.

(** ** The program *)

Section Program.

Variable bsp : Platform.
Variable hw : Hardware.

(** *** The vendor library, as far as the program can tell *)

Definition XMC_I2C_CH_MasterStart (ch : channel) (addr : Z) (cmd : XMC_I2C_CH_CMD) : M unit :=
  modify (log (EvMasterStart ch addr cmd)).

Definition XMC_I2C_CH_GetStatusFlag (ch : channel) : M Z :=
  fun w =>
    let v := PSR_IICMode hw ch (now w) in
    Done v (set_now (S (now w)) (log (EvGetStatusFlag ch v) w)).

Definition XMC_I2C_CH_ClearStatusFlag (ch : channel) (flag : Z) : M unit :=
  modify (log (EvClearStatusFlag ch flag)).

Definition XMC_I2C_CH_MasterTransmit (ch : channel) (data : Z) : M unit :=
  modify (log (EvMasterTransmit ch data)).

Definition XMC_USIC_CH_TXFIFO_IsEmpty (ch : channel) : M bool :=
  fun w =>
    let v := TXFIFO_empty hw ch (now w) in
    Done v (set_now (S (now w)) (log (EvTXFIFO_IsEmpty ch v) w)).

Definition XMC_I2C_CH_MasterStop (ch : channel) : M unit :=
  modify (log (EvMasterStop ch)).

Definition XMC_I2C_CH_GetReceivedData (ch : channel) : M Z :=
  fun w =>
    let v := uint8 (RBUF w) in
    Done v (log (EvGetReceivedData ch v) w).

Definition XMC_GPIO_SetOutputHigh (port : gpio_port) (pin : gpio_pin) : M unit :=
  modify (fun w => set_USER_LED true (log (EvSetOutputHigh port pin) w)).

Definition XMC_GPIO_SetOutputLow (port : gpio_port) (pin : gpio_pin) : M unit :=
  modify (fun w => set_USER_LED false (log (EvSetOutputLow port pin) w)).

Definition cybsp_init : M Z :=
  fun w =>
    let v := cybsp_init_result hw in
    Done v (log (EvCybspInit v) w).

Definition NVIC_GetPriorityGrouping : M Z :=
  fun w =>
    let v := priority_grouping hw in
    Done v (log (EvGetPriorityGrouping v) w).

Definition NVIC_SetPriority (irq : irqn) (prio : Z) : M unit :=
  modify (log (EvSetPriority irq prio)).

Definition NVIC_EnableIRQ (irq : irqn) : M unit :=
  modify (log (EvEnableIRQ irq)).

Definition SysTick_Config (reload : Z) : M unit :=
  modify (log (EvSysTickConfig reload)).

(** Modelled from the spec: the macro [CY_ASSERT] of cy_utils.h is not part
    of main.c.  The spec calls it a hard assertion that halts execution
    immediately when its condition is false. *)
Definition CY_ASSERT (x : Z) : M unit :=
  if x =? 0 then (fun w => Halted w) else ret tt.

(** *** SysTick_Handler (lines 87-144) *)

(** The condition of the loops at lines 114 and 125. *)
Definition ack_not_received : M bool :=
  s <- XMC_I2C_CH_GetStatusFlag I2C_MASTER_HW ;;
  ret (Z.land s (XMC_I2C_CH_STATUS_FLAG_ACK_RECEIVED bsp) =? 0).

(** The condition of the loop at line 133. *)
Definition txfifo_not_empty : M bool :=
  e <- XMC_USIC_CH_TXFIFO_IsEmpty I2C_MASTER_HW ;;
  ret (negb e).

Definition SysTick_Handler (fuel : nat) : M unit :=
  t <- get ticks ;;
  modify (set_ticks (uint32 (t + 1))) ;;
  t <- get ticks ;;
  if t =? I2C_MASTER_SEND_TASK_MS then
    (* Prepare command to toggle LED on I2C slave *)
    cmd <- get tx_master_send ;;
    (if cmd =? CMD_LED_LOW then modify (set_tx_master_send CMD_LED_HIGH)
     else if cmd =? CMD_LED_HIGH then modify (set_tx_master_send CMD_LED_LOW)
     else skip) ;;
    (* Send START condition *)
    XMC_I2C_CH_MasterStart I2C_MASTER_HW (I2C_SLAVE_SLAVE_ADDRESS bsp) XMC_I2C_CH_CMD_WRITE ;;
    (* Wait for acknowledge and reset status *)
    while_ fuel ack_not_received skip ;;
    XMC_I2C_CH_ClearStatusFlag I2C_MASTER_HW
      (uint32 (XMC_I2C_CH_STATUS_FLAG_ACK_RECEIVED bsp)) ;;
    (* Transmit next command from I2C master to I2C slave *)
    cmd <- get tx_master_send ;;
    XMC_I2C_CH_MasterTransmit I2C_MASTER_HW cmd ;;
    (* Wait for acknowledge and reset status *)
    while_ fuel ack_not_received skip ;;
    XMC_I2C_CH_ClearStatusFlag I2C_MASTER_HW
      (uint32 (XMC_I2C_CH_STATUS_FLAG_ACK_RECEIVED bsp)) ;;
    (* Wait until TX FIFO is empty *)
    while_ fuel txfifo_not_empty skip ;;
    (* Send STOP condition *)
    XMC_I2C_CH_MasterStop I2C_MASTER_HW ;;
    (* Reset ticks counter *)
    modify (set_ticks 0)
  else skip.

(** *** main (lines 162-182) *)

Definition main (fuel : nat) : M Z :=
  result <- cybsp_init ;;
  (if negb (result =? CY_RSLT_SUCCESS bsp) then CY_ASSERT 0 else skip) ;;
  g <- NVIC_GetPriorityGrouping ;;
  NVIC_SetPriority I2C_SLAVE_RECEIVE_EVENT_IRQN
    (NVIC_EncodePriority bsp g I2C_RECEIVE_EVENT_PRIORITY 0) ;;
  NVIC_EnableIRQ I2C_SLAVE_RECEIVE_EVENT_IRQN ;;
  SysTick_Config (uint32 (Z.quot (SystemCoreClock bsp) TICKS_PER_SECOND)) ;;
  while_ fuel (ret true) skip ;;
  ret 0.

(** *** I2C_SLAVE_RECEIVE_EVENT_HANDLER (lines 199-218) *)

Definition I2C_SLAVE_RECEIVE_EVENT_HANDLER : M unit :=
  (* Read received data from I2C module *)
  rx_slave_receive <- XMC_I2C_CH_GetReceivedData I2C_SLAVE_HW ;;
  (* Interpret command and set LED state accordingly *)
  if rx_slave_receive =? CMD_LED_HIGH then
    XMC_GPIO_SetOutputHigh CYBSP_USER_LED_PORT CYBSP_USER_LED_PIN
  else if rx_slave_receive =? CMD_LED_LOW then
    XMC_GPIO_SetOutputLow CYBSP_USER_LED_PORT CYBSP_USER_LED_PIN
  else skip.

(** *** Derived notions used to state the properties *)

(** The switch of lines 96-108 as a function of the stored command. *)
Definition next_command (cmd : Z) : Z :=
  if cmd =? CMD_LED_LOW then CMD_LED_HIGH
  else if cmd =? CMD_LED_HIGH then CMD_LED_LOW
  else cmd.

(** [n] consecutive invocations of the timer interrupt; an invocation that
    does not return keeps the later ones from running. *)
Fixpoint ticks_run (n : nat) (fuel : nat) : M unit :=
  match n with
  | O => skip
  | S n' => ticks_run n' fuel ;; SysTick_Handler fuel
  end.

(** The command bytes handed to [XMC_I2C_CH_MasterTransmit], oldest first. *)
Fixpoint transmitted (l : list call) : list Z :=
  match l with
  | [] => []
  | EvMasterTransmit _ data :: l' => data :: transmitted l'
  | _ :: l' => transmitted l'
  end.

(** The command the spec expects as the [N]-th one (counting from 1). *)
Definition command_no (N : nat) : Z :=
  if Nat.odd N then CMD_LED_HIGH else CMD_LED_LOW.

(** Calls that drive a GPIO pin. *)
Definition is_gpio_call (c : call) : bool :=
  match c with
  | EvSetOutputHigh _ _ | EvSetOutputLow _ _ => true
  | _ => false
  end.

(** What the master's status register and transmit FIFO show at read [t]. *)
Definition ack_received (t : nat) : bool :=
  negb (Z.land (PSR_IICMode hw I2C_MASTER_HW t)
               (XMC_I2C_CH_STATUS_FLAG_ACK_RECEIVED bsp) =? 0).

Definition txfifo_empty (t : nat) : bool := TXFIFO_empty hw I2C_MASTER_HW t.

(** [p] first holds [k] reads after read [t]. *)
Definition first_after (p : nat -> bool) (t k : nat) : Prop :=
  (forall i, (i < k)%nat -> p (t + i)%nat = false) /\ p (t + k)%nat = true.

(** [p] does not hold at any of the [n] reads from read [t] on. *)
Definition none_within (p : nat -> bool) (t n : nat) : Prop :=
  forall i, (i < n)%nat -> p (t + i)%nat = false.

(** The record of [n] status reads, resp. FIFO looks, starting at read [t]. *)
Definition status_polls (t n : nat) : list call :=
  map (fun i => EvGetStatusFlag I2C_MASTER_HW (PSR_IICMode hw I2C_MASTER_HW i))
      (seq t n).

Definition fifo_polls (t n : nat) : list call :=
  map (fun i => EvTXFIFO_IsEmpty I2C_MASTER_HW (TXFIFO_empty hw I2C_MASTER_HW i))
      (seq t n).

(** The world after [n] more reads that left the calls [evs] behind. *)
Definition polled (evs : list call) (n : nat) (w : World) : World :=
  set_now (now w + n) (set_calls (calls w ++ evs) w).

Definition polled_status (n : nat) (w : World) : World :=
  polled (status_polls (now w) n) n w.

Definition polled_fifo (n : nat) (w : World) : World :=
  polled (fifo_polls (now w) n) n w.

(** The stages a send passes through: START issued; first acknowledge seen
    after [k1] fruitless reads, flag cleared and the command transmitted;
    second acknowledge seen after [k2] fruitless reads and flag cleared;
    FIFO found empty after [k3] fruitless looks, STOP issued and the tick
    counter reset. *)
Definition stage_start (w : World) : World :=
  log (EvMasterStart I2C_MASTER_HW (I2C_SLAVE_SLAVE_ADDRESS bsp) XMC_I2C_CH_CMD_WRITE)
    (set_tx_master_send (next_command (tx_master_send w))
       (set_ticks I2C_MASTER_SEND_TASK_MS w)).

Definition clear_ack (w : World) : World :=
  log (EvClearStatusFlag I2C_MASTER_HW
         (uint32 (XMC_I2C_CH_STATUS_FLAG_ACK_RECEIVED bsp))) w.

Definition stage_transmit (k1 : nat) (w : World) : World :=
  let w1 := clear_ack (polled_status (S k1) (stage_start w)) in
  log (EvMasterTransmit I2C_MASTER_HW (tx_master_send w1)) w1.

Definition stage_acked (k1 k2 : nat) (w : World) : World :=
  clear_ack (polled_status (S k2) (stage_transmit k1 w)).

Definition stage_done (k1 k2 k3 : nat) (w : World) : World :=
  set_ticks 0
    (log (EvMasterStop I2C_MASTER_HW)
       (polled_fifo (S k3) (stage_acked k1 k2 w))).

(** Every way an invocation that reaches the send threshold can go. *)
Inductive send_outcome (fuel : nat) (w : World) : Outcome unit -> Prop :=
| send_blocked_first :
    none_within ack_received (now w) fuel ->
    send_outcome fuel w (Spin (polled_status fuel (stage_start w)))
| send_blocked_second k1 :
    (k1 < fuel)%nat ->
    first_after ack_received (now w) k1 ->
    none_within ack_received (now w + S k1) fuel ->
    send_outcome fuel w (Spin (polled_status fuel (stage_transmit k1 w)))
| send_blocked_fifo k1 k2 :
    (k1 < fuel)%nat -> (k2 < fuel)%nat ->
    first_after ack_received (now w) k1 ->
    first_after ack_received (now w + S k1) k2 ->
    none_within txfifo_empty (now w + S k1 + S k2) fuel ->
    send_outcome fuel w (Spin (polled_fifo fuel (stage_acked k1 k2 w)))
| send_completed k1 k2 k3 :
    (k1 < fuel)%nat -> (k2 < fuel)%nat -> (k3 < fuel)%nat ->
    first_after ack_received (now w) k1 ->
    first_after ack_received (now w + S k1) k2 ->
    first_after txfifo_empty (now w + S k1 + S k2) k3 ->
    send_outcome fuel w (Done tt (stage_done k1 k2 k3 w)).

(** The states the system can be in: power-on, and whatever [main] or an
    interrupt handler leaves behind, whether it returned or not.  The
    receive interrupt fires with an arbitrary byte in the receive buffer. *)
Inductive reachable : World -> Prop :=
| reach_power_on : reachable power_on
| reach_main fuel w :
    reachable w -> reachable (world_of (main fuel w))
| reach_SysTick fuel w :
    reachable w -> reachable (world_of (SysTick_Handler fuel w))
| reach_receive b w :
    reachable w ->
    reachable (world_of (I2C_SLAVE_RECEIVE_EVENT_HANDLER (deliver b w))).

(** [m] neither reads nor writes what [f] changes: running it after the
    change is running it before the change. *)
Definition commutes {A : Type} (f : World -> World) (m : M A) : Prop :=
  forall w, m (f w) = map_world f (m w).

(** *** Further notions: runs of the receiver, counted calls, responsive hardware *)

(** The bus delivers the bytes [bs] one after the other; the receive
    interrupt runs once for each. *)
Fixpoint receive_all (bs : list Z) : M unit :=
  match bs with
  | [] => skip
  | b :: bs' =>
      fun w => (I2C_SLAVE_RECEIVE_EVENT_HANDLER ;; receive_all bs') (deliver b w)
  end.

(** The bytes the switch of lines 205-217 has a case for. *)
Definition is_command (b : Z) : bool :=
  (uint8 b =? CMD_LED_HIGH) || (uint8 b =? CMD_LED_LOW).

Definition is_start (c : call) : bool :=
  match c with EvMasterStart _ _ _ => true | _ => false end.

Definition is_stop (c : call) : bool :=
  match c with EvMasterStop _ => true | _ => false end.

Definition count (p : call -> bool) (l : list call) : nat := length (filter p l).

(** Hardware that shows the acknowledge flag, and an empty transmit FIFO,
    within [D] reads of any read. *)
Definition responsive (D : nat) : Prop :=
  forall t,
    (exists k, (k < D)%nat /\ ack_received (t + k) = true) /\
    (exists k, (k < D)%nat /\ txfifo_empty (t + k) = true).

(** * Properties *)

(** Unfolding the state operations down to the record. *)
Ltac unfold_world :=
  unfold polled_fifo, polled_status, polled, clear_ack, log, deliver,
    set_file_ticks, set_tx_master_send, set_ticks, set_USER_LED, set_RBUF,
    set_now, set_calls in *;
  cbn [file_ticks tx_master_send ticks USER_LED RBUF now calls] in *.

Ltac unfold_monad :=
  unfold bind, ret, skip, get, modify in *.

(** ** The busy-wait loops *)

Lemma polled_nothing evs w : evs = [] -> polled evs 0 w = w.
Proof.
  intros ->. destruct w. unfold_world. now rewrite Nat.add_0_r, app_nil_r.
Qed.

Lemma status_polls_S t n :
  status_polls t (S n) =
  EvGetStatusFlag I2C_MASTER_HW (PSR_IICMode hw I2C_MASTER_HW t) :: status_polls (S t) n.
Proof. reflexivity. Qed.

Lemma fifo_polls_S t n :
  fifo_polls t (S n) =
  EvTXFIFO_IsEmpty I2C_MASTER_HW (TXFIFO_empty hw I2C_MASTER_HW t) :: fifo_polls (S t) n.
Proof. reflexivity. Qed.

Lemma none_within_S p t n :
  p t = false -> none_within p (S t) n -> none_within p t (S n).
Proof.
  intros H0 H i Hi. destruct i as [|i].
  - now rewrite Nat.add_0_r.
  - replace (t + S i)%nat with (S t + i)%nat by lia. apply H. lia.
Qed.

Lemma first_after_0 (p : nat -> bool) t : p t = true -> first_after p t 0.
Proof.
  intros H. split; [intros i Hi; lia | now rewrite Nat.add_0_r].
Qed.

Lemma first_after_S p t k :
  p t = false -> first_after p (S t) k -> first_after p t (S k).
Proof.
  intros H0 [H1 H2]. split.
  - apply none_within_S; assumption.
  - now replace (t + S k)%nat with (S t + k)%nat by lia.
Qed.

(** The loops of lines 114 and 125: either the flag first shows after [k]
    fruitless reads, with [k] within the budget, and the loop is left after
    [k + 1] reads; or the flag shows at none of the reads the budget allows
    and the loop is still running. *)
Lemma wait_ack_cases fuel : forall w,
  (exists k, (k < fuel)%nat /\ first_after ack_received (now w) k /\
             while_ fuel ack_not_received skip w = Done tt (polled_status (S k) w))
  \/ (none_within ack_received (now w) fuel /\
      while_ fuel ack_not_received skip w = Spin (polled_status fuel w)).
Proof.
  induction fuel as [|fuel IH]; intros w.
  - right. split; [intros i Hi; lia |].
    cbn. unfold polled_status. now rewrite polled_nothing.
  - cbn [while_]. unfold ack_not_received, XMC_I2C_CH_GetStatusFlag.
    unfold_monad.
    destruct (Z.land (PSR_IICMode hw I2C_MASTER_HW (now w))
                (XMC_I2C_CH_STATUS_FLAG_ACK_RECEIVED bsp) =? 0) eqn:E.
    + set (w1 := set_now (S (now w)) _).
      assert (Hp : forall n, polled_status n w1 = polled_status (S n) w).
      { intros n. subst w1. destruct w. unfold_world.
        rewrite status_polls_S, <- app_assoc. cbn [app].
        f_equal. lia. }
      assert (Hn : now w1 = S (now w)) by reflexivity.
      assert (E0 : ack_received (now w) = false).
      { unfold ack_received. now rewrite E. }
      destruct (IH w1) as [(k & Hk & Hf & Hr) | (Hf & Hr)].
      * left. exists (S k). rewrite Hn in Hf. rewrite Hp in Hr.
        split; [lia |]. split; [now apply first_after_S | exact Hr].
      * right. rewrite Hn in Hf. rewrite Hp in Hr.
        split; [now apply none_within_S | exact Hr].
    + left. exists 0%nat. split; [lia |]. split.
      * apply first_after_0. unfold ack_received. now rewrite E.
      * destruct w. unfold_world. rewrite status_polls_S. cbn.
        do 2 f_equal. lia.
Qed.

(** The loop of line 133, likewise. *)
Lemma wait_fifo_cases fuel : forall w,
  (exists k, (k < fuel)%nat /\ first_after txfifo_empty (now w) k /\
             while_ fuel txfifo_not_empty skip w = Done tt (polled_fifo (S k) w))
  \/ (none_within txfifo_empty (now w) fuel /\
      while_ fuel txfifo_not_empty skip w = Spin (polled_fifo fuel w)).
Proof.
  induction fuel as [|fuel IH]; intros w.
  - right. split; [intros i Hi; lia |].
    cbn. unfold polled_fifo. now rewrite polled_nothing.
  - cbn [while_]. unfold txfifo_not_empty, XMC_USIC_CH_TXFIFO_IsEmpty.
    unfold_monad.
    destruct (TXFIFO_empty hw I2C_MASTER_HW (now w)) eqn:E; cbn [negb].
    + left. exists 0%nat. split; [lia |]. split.
      * apply first_after_0. exact E.
      * destruct w. unfold_world. rewrite fifo_polls_S. cbn.
        rewrite E. do 2 f_equal. lia.
    + set (w1 := set_now (S (now w)) _).
      assert (Hp : forall n, polled_fifo n w1 = polled_fifo (S n) w).
      { intros n. subst w1. destruct w. unfold_world.
        rewrite fifo_polls_S, <- app_assoc, E. cbn [app].
        f_equal. lia. }
      assert (Hn : now w1 = S (now w)) by reflexivity.
      destruct (IH w1) as [(k & Hk & Hf & Hr) | (Hf & Hr)].
      * left. exists (S k). rewrite Hn in Hf. rewrite Hp in Hr.
        split; [lia |]. split; [now apply first_after_S | exact Hr].
      * right. rewrite Hn in Hf. rewrite Hp in Hr.
        split; [now apply none_within_S | exact Hr].
Qed.

(** ** One invocation of the timer interrupt *)

(** Lines 96-108: the switch stores [next_command] of the stored command. *)
Lemma toggle_switch w :
  (if tx_master_send w =? CMD_LED_LOW then modify (set_tx_master_send CMD_LED_HIGH)
   else if tx_master_send w =? CMD_LED_HIGH then modify (set_tx_master_send CMD_LED_LOW)
   else skip) w
  = Done tt (set_tx_master_send (next_command (tx_master_send w)) w).
Proof.
  unfold next_command.
  destruct (tx_master_send w =? CMD_LED_LOW) eqn:E1; [reflexivity |].
  destruct (tx_master_send w =? CMD_LED_HIGH) eqn:E2; [reflexivity |].
  destruct w. reflexivity.
Qed.

(** Below the threshold the handler only stores the incremented counter. *)
Lemma SysTick_Handler_idle fuel w :
  uint32 (ticks w + 1) <> I2C_MASTER_SEND_TASK_MS ->
  SysTick_Handler fuel w = Done tt (set_ticks (uint32 (ticks w + 1)) w).
Proof.
  intros H. apply Z.eqb_neq in H.
  unfold SysTick_Handler, bind, get, modify. cbn [ticks set_ticks].
  now rewrite H.
Qed.

(** At the threshold the handler goes one of the four ways of
    [send_outcome]. *)
Lemma SysTick_Handler_send fuel w :
  uint32 (ticks w + 1) = I2C_MASTER_SEND_TASK_MS ->
  send_outcome fuel w (SysTick_Handler fuel w).
Proof.
  intros H.
  unfold SysTick_Handler, bind, get, modify. cbn [ticks set_ticks].
  rewrite H, Z.eqb_refl.
  rewrite toggle_switch.
  unfold XMC_I2C_CH_MasterStart, XMC_I2C_CH_ClearStatusFlag,
    XMC_I2C_CH_MasterTransmit, XMC_I2C_CH_MasterStop, modify.
  change (log _ (set_tx_master_send _ (set_ticks I2C_MASTER_SEND_TASK_MS w)))
    with (stage_start w).
  assert (N0 : now (stage_start w) = now w) by reflexivity.
  destruct (wait_ack_cases fuel (stage_start w)) as [(k1 & Hk1 & Hf1 & ->) | (Hf1 & ->)];
    rewrite N0 in Hf1; [| now apply send_blocked_first].
  change (log (EvMasterTransmit _ _) _) with (stage_transmit k1 w).
  assert (N1 : now (stage_transmit k1 w) = (now w + S k1)%nat) by reflexivity.
  destruct (wait_ack_cases fuel (stage_transmit k1 w)) as [(k2 & Hk2 & Hf2 & ->) | (Hf2 & ->)];
    rewrite N1 in Hf2; [| now apply send_blocked_second].
  change (log _ (polled_status (S k2) _)) with (stage_acked k1 k2 w).
  assert (N2 : now (stage_acked k1 k2 w) = (now w + S k1 + S k2)%nat) by reflexivity.
  destruct (wait_fifo_cases fuel (stage_acked k1 k2 w)) as [(k3 & Hk3 & Hf3 & ->) | (Hf3 & ->)];
    rewrite N2 in Hf3; [| now apply send_blocked_fifo].
  now apply send_completed.
Qed.

(** ** What each stage of a send leaves in the world *)

Lemma transmitted_app l1 l2 :
  transmitted (l1 ++ l2) = transmitted l1 ++ transmitted l2.
Proof.
  induction l1 as [|c l1 IH]; [reflexivity |].
  destruct c; cbn; rewrite IH; reflexivity.
Qed.

Lemma transmitted_status_polls t n : transmitted (status_polls t n) = [].
Proof.
  revert t. induction n as [|n IH]; intros t; [reflexivity |].
  rewrite status_polls_S. cbn. apply IH.
Qed.

Lemma transmitted_fifo_polls t n : transmitted (fifo_polls t n) = [].
Proof.
  revert t. induction n as [|n IH]; intros t; [reflexivity |].
  rewrite fifo_polls_S. cbn. apply IH.
Qed.

Lemma gpio_status_polls t n : filter is_gpio_call (status_polls t n) = [].
Proof.
  revert t. induction n as [|n IH]; intros t; [reflexivity |].
  rewrite status_polls_S. cbn. apply IH.
Qed.

Lemma gpio_fifo_polls t n : filter is_gpio_call (fifo_polls t n) = [].
Proof.
  revert t. induction n as [|n IH]; intros t; [reflexivity |].
  rewrite fifo_polls_S. cbn. apply IH.
Qed.

Lemma calls_stage_start w :
  calls (stage_start w) =
  calls w ++ [EvMasterStart I2C_MASTER_HW (I2C_SLAVE_SLAVE_ADDRESS bsp) XMC_I2C_CH_CMD_WRITE].
Proof. reflexivity. Qed.

Lemma calls_stage_transmit k1 w :
  calls (stage_transmit k1 w) =
  calls w ++
  [EvMasterStart I2C_MASTER_HW (I2C_SLAVE_SLAVE_ADDRESS bsp) XMC_I2C_CH_CMD_WRITE] ++
  status_polls (now w) (S k1) ++
  [EvClearStatusFlag I2C_MASTER_HW (uint32 (XMC_I2C_CH_STATUS_FLAG_ACK_RECEIVED bsp));
   EvMasterTransmit I2C_MASTER_HW (next_command (tx_master_send w))].
Proof.
  unfold stage_transmit, stage_start. unfold_world.
  now rewrite <- !app_assoc.
Qed.

Lemma calls_clear_ack w :
  calls (clear_ack w) =
  calls w ++ [EvClearStatusFlag I2C_MASTER_HW
                (uint32 (XMC_I2C_CH_STATUS_FLAG_ACK_RECEIVED bsp))].
Proof. reflexivity. Qed.

Lemma calls_polled_status n w :
  calls (polled_status n w) = calls w ++ status_polls (now w) n.
Proof. reflexivity. Qed.

Lemma calls_polled_fifo n w :
  calls (polled_fifo n w) = calls w ++ fifo_polls (now w) n.
Proof. reflexivity. Qed.

Lemma calls_stage_acked k1 k2 w :
  calls (stage_acked k1 k2 w) =
  calls w ++
  [EvMasterStart I2C_MASTER_HW (I2C_SLAVE_SLAVE_ADDRESS bsp) XMC_I2C_CH_CMD_WRITE] ++
  status_polls (now w) (S k1) ++
  [EvClearStatusFlag I2C_MASTER_HW (uint32 (XMC_I2C_CH_STATUS_FLAG_ACK_RECEIVED bsp));
   EvMasterTransmit I2C_MASTER_HW (next_command (tx_master_send w))] ++
  status_polls (now w + S k1) (S k2) ++
  [EvClearStatusFlag I2C_MASTER_HW (uint32 (XMC_I2C_CH_STATUS_FLAG_ACK_RECEIVED bsp))].
Proof.
  unfold stage_acked.
  rewrite calls_clear_ack, calls_polled_status, calls_stage_transmit.
  replace (now (stage_transmit k1 w)) with (now w + S k1)%nat by reflexivity.
  rewrite <- !app_assoc. reflexivity.
Qed.

Lemma calls_stage_done k1 k2 k3 w :
  calls (stage_done k1 k2 k3 w) =
  calls w ++
  [EvMasterStart I2C_MASTER_HW (I2C_SLAVE_SLAVE_ADDRESS bsp) XMC_I2C_CH_CMD_WRITE] ++
  status_polls (now w) (S k1) ++
  [EvClearStatusFlag I2C_MASTER_HW (uint32 (XMC_I2C_CH_STATUS_FLAG_ACK_RECEIVED bsp));
   EvMasterTransmit I2C_MASTER_HW (next_command (tx_master_send w))] ++
  status_polls (now w + S k1) (S k2) ++
  [EvClearStatusFlag I2C_MASTER_HW (uint32 (XMC_I2C_CH_STATUS_FLAG_ACK_RECEIVED bsp))] ++
  fifo_polls (now w + S k1 + S k2) (S k3) ++
  [EvMasterStop I2C_MASTER_HW].
Proof.
  assert (E : calls (stage_done k1 k2 k3 w) =
              calls (polled_fifo (S k3) (stage_acked k1 k2 w)) ++
              [EvMasterStop I2C_MASTER_HW]) by reflexivity.
  rewrite E, calls_polled_fifo, calls_stage_acked.
  replace (now (stage_acked k1 k2 w)) with (now w + S k1 + S k2)%nat by reflexivity.
  rewrite <- !app_assoc. reflexivity.
Qed.

Lemma first_after_unique p t k k' :
  first_after p t k -> first_after p t k' -> k = k'.
Proof.
  intros [Hn Hy] [Hn' Hy'].
  destruct (Nat.lt_trichotomy k k') as [L | [E | L]]; [| exact E |].
  - rewrite (Hn' k L) in Hy. discriminate.
  - rewrite (Hn k' L) in Hy'. discriminate.
Qed.

Lemma first_after_not_none p t k n :
  first_after p t k -> none_within p t n -> (k < n)%nat -> False.
Proof.
  intros [_ Hy] Hn L. rewrite (Hn k L) in Hy. discriminate.
Qed.

Lemma in_status_polls c t n :
  In c (status_polls t n) -> exists v, c = EvGetStatusFlag I2C_MASTER_HW v.
Proof.
  unfold status_polls. rewrite in_map_iff. intros (i & <- & _). eauto.
Qed.

Lemma in_fifo_polls c t n :
  In c (fifo_polls t n) -> exists v, c = EvTXFIFO_IsEmpty I2C_MASTER_HW v.
Proof.
  unfold fifo_polls. rewrite in_map_iff. intros (i & <- & _). eauto.
Qed.

(** With the three flags showing within the budget, the send completes. *)
Lemma SysTick_Handler_completes fuel w k1 k2 k3 :
  uint32 (ticks w + 1) = I2C_MASTER_SEND_TASK_MS ->
  (k1 < fuel)%nat -> (k2 < fuel)%nat -> (k3 < fuel)%nat ->
  first_after ack_received (now w) k1 ->
  first_after ack_received (now w + S k1) k2 ->
  first_after txfifo_empty (now w + S k1 + S k2) k3 ->
  SysTick_Handler fuel w = Done tt (stage_done k1 k2 k3 w).
Proof.
  intros Hs L1 L2 L3 F1 F2 F3.
  destruct (SysTick_Handler_send fuel w Hs)
    as [N1 | j1 M1 G1 N2 | j1 j2 M1 M2 G1 G2 N3 | j1 j2 j3 M1 M2 M3 G1 G2 G3].
  - destruct (first_after_not_none _ _ _ _ F1 N1 L1).
  - assert (j1 = k1) by (eapply first_after_unique; eassumption). subst j1.
    destruct (first_after_not_none _ _ _ _ F2 N2 L2).
  - assert (j1 = k1) by (eapply first_after_unique; eassumption). subst j1.
    assert (j2 = k2) by (eapply first_after_unique; eassumption). subst j2.
    destruct (first_after_not_none _ _ _ _ F3 N3 L3).
  - assert (j1 = k1) by (eapply first_after_unique; eassumption). subst j1.
    assert (j2 = k2) by (eapply first_after_unique; eassumption). subst j2.
    assert (j3 = k3) by (eapply first_after_unique; eassumption). subst j3.
    reflexivity.
Qed.

(** Inverting [send_outcome] on a returned, resp. a waiting, invocation. *)
Lemma send_outcome_done fuel w w' :
  send_outcome fuel w (Done tt w') ->
  exists k1 k2 k3,
    ((k1 < fuel)%nat /\ (k2 < fuel)%nat /\ (k3 < fuel)%nat) /\
    first_after ack_received (now w) k1 /\
    first_after ack_received (now w + S k1) k2 /\
    first_after txfifo_empty (now w + S k1 + S k2) k3 /\
    w' = stage_done k1 k2 k3 w.
Proof.
  intros H. inversion H; subst. exists k1, k2, k3. auto 10.
Qed.

Lemma send_outcome_not_halted fuel w w' : ~ send_outcome fuel w (Halted w').
Proof. intros H. inversion H. Qed.

Lemma send_outcome_spin fuel w w' :
  send_outcome fuel w (Spin w') ->
  tx_master_send w' = next_command (tx_master_send w) /\
  ticks w' = I2C_MASTER_SEND_TASK_MS /\
  USER_LED w' = USER_LED w /\
  file_ticks w' = file_ticks w /\
  exists l,
    calls w' = calls w ++
      EvMasterStart I2C_MASTER_HW (I2C_SLAVE_SLAVE_ADDRESS bsp) XMC_I2C_CH_CMD_WRITE :: l /\
    ~ In (EvMasterStop I2C_MASTER_HW) l /\
    filter is_gpio_call l = [] /\
    (transmitted l = [] \/ transmitted l = [next_command (tx_master_send w)]).
Proof.
  intros H. inversion H; subst; (do 4 (split; [reflexivity |])).
  - exists (status_polls (now w) fuel).
    rewrite calls_polled_status, calls_stage_start, <- app_assoc.
    split; [reflexivity |]. split; [| split].
    + intros I. apply in_status_polls in I as [v I]. discriminate.
    + apply gpio_status_polls.
    + left. apply transmitted_status_polls.
  - eexists.
    rewrite calls_polled_status, calls_stage_transmit, <- !app_assoc.
    split; [reflexivity |]. split; [| split].
    + rewrite !in_app_iff. cbn [In].
      intros [I | [[I | [I | []]] | I]]; try discriminate;
        apply in_status_polls in I as [v I]; discriminate.
    + rewrite !filter_app, !gpio_status_polls. reflexivity.
    + right. rewrite !transmitted_app, !transmitted_status_polls. reflexivity.
  - eexists.
    rewrite calls_polled_fifo, calls_stage_acked, <- !app_assoc.
    split; [reflexivity |]. split; [| split].
    + rewrite !in_app_iff. cbn [In].
      intros [I | [[I | [I | []]] | [I | [[I | []] | I]]]]; try discriminate;
        try (apply in_status_polls in I as [v I]; discriminate).
      apply in_fifo_polls in I as [v I]. discriminate.
    + rewrite !filter_app, !gpio_status_polls, gpio_fifo_polls. reflexivity.
    + right. rewrite !transmitted_app, !transmitted_status_polls,
        transmitted_fifo_polls. reflexivity.
Qed.

(** ** Computations that leave part of the world alone *)

Lemma commutes_ret {A} f (a : A) : commutes f (ret a).
Proof. intros w. reflexivity. Qed.

Lemma commutes_bind {A B} f (m : M A) (k : A -> M B) :
  commutes f m -> (forall a, commutes f (k a)) -> commutes f (bind m k).
Proof.
  intros Hm Hk w. unfold bind. rewrite Hm.
  destruct (m w) as [a w' | w' | w']; cbn; [apply Hk | reflexivity | reflexivity].
Qed.

Lemma commutes_while f fuel cond body :
  commutes f cond -> commutes f body -> commutes f (while_ fuel cond body).
Proof.
  intros Hc Hb. induction fuel as [|fuel IH]; [intros w; reflexivity |].
  cbn [while_]. apply commutes_bind; [exact Hc |].
  intros [|]; [| apply commutes_ret].
  apply commutes_bind; [exact Hb | intros _; exact IH].
Qed.

Lemma commutes_get {A} f (g : World -> A) :
  (forall w, g (f w) = g w) -> commutes f (get g).
Proof. intros H w. unfold get. cbn. now rewrite H. Qed.

Lemma commutes_modify f h :
  (forall w, h (f w) = f (h w)) -> commutes f (modify h).
Proof. intros H w. unfold modify. cbn. now rewrite H. Qed.

Lemma commutes_if {A} f (b : bool) (m1 m2 : M A) :
  commutes f m1 -> commutes f m2 -> commutes f (if b then m1 else m2).
Proof. destruct b; auto. Qed.

(** Breaking a computation down to the operations it is made of. *)
Ltac commutes_step :=
  match goal with
  | |- commutes _ (bind _ _) => apply commutes_bind; [| intros ?]
  | |- commutes _ (if _ then _ else _) => apply commutes_if
  | |- commutes _ (while_ _ _ _) => apply commutes_while
  | |- commutes _ (ret _) => apply commutes_ret
  | |- commutes _ skip => apply commutes_ret
  | |- commutes _ (get _) => apply commutes_get; intros []; reflexivity
  | |- commutes _ (modify _) => apply commutes_modify; intros []; reflexivity
  | |- commutes _ _ => intros []; reflexivity
  end.

Ltac commutes_tac := repeat commutes_step.

Lemma SysTick_Handler_commutes_USER_LED v fuel :
  commutes (set_USER_LED v) (SysTick_Handler fuel).
Proof.
  unfold SysTick_Handler, ack_not_received, txfifo_not_empty. commutes_tac.
Qed.

Lemma SysTick_Handler_commutes_file_ticks v fuel :
  commutes (set_file_ticks v) (SysTick_Handler fuel).
Proof.
  unfold SysTick_Handler, ack_not_received, txfifo_not_empty. commutes_tac.
Qed.

Lemma receive_commutes_tx_master_send v :
  commutes (set_tx_master_send v) I2C_SLAVE_RECEIVE_EVENT_HANDLER.
Proof. unfold I2C_SLAVE_RECEIVE_EVENT_HANDLER. commutes_tac. Qed.

Lemma receive_commutes_ticks v :
  commutes (set_ticks v) I2C_SLAVE_RECEIVE_EVENT_HANDLER.
Proof. unfold I2C_SLAVE_RECEIVE_EVENT_HANDLER. commutes_tac. Qed.

Lemma receive_commutes_file_ticks v :
  commutes (set_file_ticks v) I2C_SLAVE_RECEIVE_EVENT_HANDLER.
Proof. unfold I2C_SLAVE_RECEIVE_EVENT_HANDLER. commutes_tac. Qed.

Lemma main_commutes_file_ticks v fuel :
  commutes (set_file_ticks v) (main fuel).
Proof. unfold main, CY_ASSERT. commutes_tac. Qed.

(** A computation that commutes with every write to a variable leaves the
    variable as it found it. *)
Lemma commutes_keeps_file_ticks {A} (m : M A) w :
  commutes (set_file_ticks (file_ticks w)) m ->
  file_ticks (world_of (m w)) = file_ticks w.
Proof.
  intros H. assert (E : set_file_ticks (file_ticks w) w = w) by now destruct w.
  specialize (H w). rewrite E in H. rewrite H.
  now destruct (m w).
Qed.

Lemma commutes_keeps_tx_master_send {A} (m : M A) w :
  commutes (set_tx_master_send (tx_master_send w)) m ->
  tx_master_send (world_of (m w)) = tx_master_send w.
Proof.
  intros H. assert (E : set_tx_master_send (tx_master_send w) w = w) by now destruct w.
  specialize (H w). rewrite E in H. rewrite H.
  now destruct (m w).
Qed.

Lemma commutes_keeps_ticks {A} (m : M A) w :
  commutes (set_ticks (ticks w)) m ->
  ticks (world_of (m w)) = ticks w.
Proof.
  intros H. assert (E : set_ticks (ticks w) w = w) by now destruct w.
  specialize (H w). rewrite E in H. rewrite H.
  now destruct (m w).
Qed.

Lemma commutes_keeps_USER_LED {A} (m : M A) w :
  commutes (set_USER_LED (USER_LED w)) m ->
  USER_LED (world_of (m w)) = USER_LED w.
Proof.
  intros H. assert (E : set_USER_LED (USER_LED w) w = w) by now destruct w.
  specialize (H w). rewrite E in H. rewrite H.
  now destruct (m w).
Qed.

(** ** Runs of the timer interrupt *)

Lemma uint32_small z : 0 <= z < 2 ^ 32 -> uint32 z = z.
Proof. intros H. unfold uint32. now apply Z.mod_small. Qed.

Lemma next_command_command_no k : next_command (command_no k) = command_no (S k).
Proof.
  unfold command_no. rewrite Nat.odd_succ, <- Nat.negb_odd.
  destruct (Nat.odd k); reflexivity.
Qed.

Lemma commands_snoc k :
  map command_no (seq 1 (S k)) = map command_no (seq 1 k) ++ [command_no (S k)].
Proof. now rewrite seq_S, map_app. Qed.

Lemma nth_error_commands k N c :
  nth_error (map command_no (seq 1 k)) N = Some c -> c = command_no (S N).
Proof.
  intros H.
  assert (L : (N < k)%nat).
  { assert (L : nth_error (map command_no (seq 1 k)) N <> None) by congruence.
    apply nth_error_Some in L. now rewrite length_map, length_seq in L. }
  rewrite nth_error_map in H.
  destruct (nth_error (seq 1 k) N) as [i|] eqn:E; [| discriminate].
  apply (nth_error_nth _ _ 0%nat) in E. rewrite seq_nth in E by exact L.
  cbn in H. injection H as <-. now subst i.
Qed.

Lemma transmitted_stage_done k1 k2 k3 w :
  transmitted (calls (stage_done k1 k2 k3 w)) =
  transmitted (calls w) ++ [next_command (tx_master_send w)].
Proof.
  rewrite calls_stage_done, !transmitted_app, !transmitted_status_polls,
    transmitted_fifo_polls.
  reflexivity.
Qed.

(** Between two sends: [n] invocations so far, [k] commands sent, the
    stored command is the [k]-th one.  One more invocation keeps this up,
    or is still waiting with [k] or [k + 1] commands sent. *)
Lemma SysTick_Handler_step fuel n k w :
  0 <= ticks w < I2C_MASTER_SEND_TASK_MS ->
  Z.of_nat n = I2C_MASTER_SEND_TASK_MS * Z.of_nat k + ticks w ->
  transmitted (calls w) = map command_no (seq 1 k) ->
  tx_master_send w = command_no k ->
  match SysTick_Handler fuel w with
  | Done _ w' =>
      exists k',
        0 <= ticks w' < I2C_MASTER_SEND_TASK_MS /\
        Z.of_nat (S n) = I2C_MASTER_SEND_TASK_MS * Z.of_nat k' + ticks w' /\
        transmitted (calls w') = map command_no (seq 1 k') /\
        tx_master_send w' = command_no k'
  | Spin w' =>
      exists k',
        I2C_MASTER_SEND_TASK_MS * Z.of_nat k' <= Z.of_nat (S n) /\
        transmitted (calls w') = map command_no (seq 1 k')
  | Halted _ => False
  end.
Proof.
  unfold I2C_MASTER_SEND_TASK_MS. intros Hr Hn Ht Hc.
  assert (Hu : uint32 (ticks w + 1) = ticks w + 1).
  { apply uint32_small. change (2 ^ 32) with 4294967296. lia. }
  destruct (Z.eq_dec (ticks w + 1) 500) as [Hs | Hs].
  - assert (Hs' : uint32 (ticks w + 1) = I2C_MASTER_SEND_TASK_MS)
      by (rewrite Hu; exact Hs).
    pose proof (SysTick_Handler_send fuel w Hs') as O.
    destruct (SysTick_Handler fuel w) as [[] w' | w' | w'].
    + apply send_outcome_done in O as (k1 & k2 & k3 & _ & _ & _ & _ & ->).
      exists (S k). rewrite transmitted_stage_done, Ht, Hc, commands_snoc,
        next_command_command_no.
      change (ticks (stage_done k1 k2 k3 w)) with 0.
      change (tx_master_send (stage_done k1 k2 k3 w))
        with (next_command (tx_master_send w)).
      rewrite Hc, next_command_command_no.
      repeat split; try reflexivity; lia.
    + apply send_outcome_spin in O as (_ & _ & _ & _ & l & Hl & _ & _ & [T | T]).
      * exists k. split; [lia |].
        rewrite Hl, transmitted_app. cbn [transmitted]. rewrite T, app_nil_r.
        exact Ht.
      * exists (S k). split; [lia |].
        rewrite Hl, transmitted_app. cbn [transmitted].
        rewrite T, Ht, Hc, next_command_command_no, commands_snoc.
        reflexivity.
    + exact (send_outcome_not_halted _ _ _ O).
  - rewrite SysTick_Handler_idle by (rewrite Hu; exact Hs).
    exists k. rewrite Hu. cbn [ticks set_ticks calls tx_master_send].
    repeat split; try assumption; lia.
Qed.

Lemma ticks_run_power_on fuel n :
  match ticks_run n fuel power_on with
  | Done _ w =>
      exists k,
        0 <= ticks w < I2C_MASTER_SEND_TASK_MS /\
        Z.of_nat n = I2C_MASTER_SEND_TASK_MS * Z.of_nat k + ticks w /\
        transmitted (calls w) = map command_no (seq 1 k) /\
        tx_master_send w = command_no k
  | Spin w =>
      exists k,
        I2C_MASTER_SEND_TASK_MS * Z.of_nat k <= Z.of_nat n /\
        transmitted (calls w) = map command_no (seq 1 k)
  | Halted _ => False
  end.
Proof.
  induction n as [|n IH].
  - exists 0%nat. cbn. unfold I2C_MASTER_SEND_TASK_MS. repeat split; lia.
  - cbn [ticks_run]. unfold bind.
    destruct (ticks_run n fuel power_on) as [[] w | w | w].
    + destruct IH as (k & Hr & Hn & Ht & Hc).
      exact (SysTick_Handler_step fuel n k w Hr Hn Ht Hc).
    + destruct IH as (k & Hn & Ht). exists k. split; [lia | exact Ht].
    + exact IH.
Qed.

(** Below the threshold a run only counts. *)
Lemma ticks_run_idle fuel i : forall w,
  0 <= ticks w ->
  ticks w + Z.of_nat i < I2C_MASTER_SEND_TASK_MS ->
  ticks_run i fuel w = Done tt (set_ticks (ticks w + Z.of_nat i) w).
Proof.
  unfold I2C_MASTER_SEND_TASK_MS.
  induction i as [|i IH]; intros w H0 H1.
  - cbn. rewrite Z.add_0_r. now destruct w.
  - cbn [ticks_run]. unfold bind. rewrite IH by lia.
    assert (Hu : uint32 (ticks w + Z.of_nat i + 1) = ticks w + Z.of_nat (S i)).
    { rewrite uint32_small; [lia |]. change (2 ^ 32) with 4294967296. lia. }
    rewrite SysTick_Handler_idle; cbn [ticks set_ticks]; rewrite Hu.
    + now destruct w.
    + unfold I2C_MASTER_SEND_TASK_MS. lia.
Qed.

(** From a zero counter: 499 invocations that only count, then a send. *)
Lemma ticks_run_S n fuel w :
  ticks_run (S n) fuel w =
  match ticks_run n fuel w with
  | Done _ w' => SysTick_Handler fuel w'
  | Spin w' => Spin w'
  | Halted w' => Halted w'
  end.
Proof. reflexivity. Qed.

Lemma counting_after_reset w :
  ticks w = 0 ->
  ticks w = 0 /\
  (forall fuel i,
      (i <= 499)%nat ->
      ticks_run i fuel w = Done tt (set_ticks (Z.of_nat i) w)) /\
  (forall fuel, exists l,
      calls (world_of (ticks_run 500 fuel w)) =
      calls w ++
      EvMasterStart I2C_MASTER_HW (I2C_SLAVE_SLAVE_ADDRESS bsp) XMC_I2C_CH_CMD_WRITE :: l).
Proof.
  intros T0.
  assert (R : forall fuel i, (i <= 499)%nat ->
                ticks_run i fuel w = Done tt (set_ticks (Z.of_nat i) w)).
  { intros fuel i Hi.
    rewrite ticks_run_idle; rewrite T0; unfold I2C_MASTER_SEND_TASK_MS;
      [reflexivity | lia | lia]. }
  split; [exact T0 |]. split; [exact R |].
  intros fuel. rewrite (ticks_run_S 499), (R fuel 499%nat) by lia.
  remember (set_ticks (Z.of_nat 499) w) as w499 eqn:E499.
  assert (T : ticks w499 = Z.of_nat 499) by now subst w499.
  assert (C : calls w499 = calls w) by now subst w499.
  clear E499. rewrite <- C.
  assert (Hs : uint32 (ticks w499 + 1) = I2C_MASTER_SEND_TASK_MS)
    by (rewrite T; reflexivity).
  pose proof (SysTick_Handler_send fuel w499 Hs) as O.
  destruct (SysTick_Handler fuel w499) as [[] v | v | v].
  - apply send_outcome_done in O as (j1 & j2 & j3 & _ & _ & _ & _ & ->).
    cbn [world_of]. rewrite calls_stage_done. eexists. reflexivity.
  - apply send_outcome_spin in O as (_ & _ & _ & _ & l & Hl & _).
    exists l. exact Hl.
  - destruct (send_outcome_not_halted _ _ _ O).
Qed.

(** ** The receiver, main, and the sender's calls *)

Lemma receive_run w :
  I2C_SLAVE_RECEIVE_EVENT_HANDLER w =
  let b := uint8 (RBUF w) in
  let w1 := log (EvGetReceivedData I2C_SLAVE_HW b) w in
  Done tt
    (if b =? CMD_LED_HIGH then
       set_USER_LED true (log (EvSetOutputHigh CYBSP_USER_LED_PORT CYBSP_USER_LED_PIN) w1)
     else if b =? CMD_LED_LOW then
       set_USER_LED false (log (EvSetOutputLow CYBSP_USER_LED_PORT CYBSP_USER_LED_PIN) w1)
     else w1).
Proof.
  unfold I2C_SLAVE_RECEIVE_EVENT_HANDLER, XMC_I2C_CH_GetReceivedData, bind.
  cbv zeta.
  destruct (uint8 (RBUF w) =? CMD_LED_HIGH); [reflexivity |].
  destruct (uint8 (RBUF w) =? CMD_LED_LOW); reflexivity.
Qed.

Lemma uint8_small b : 0 <= b < 256 -> uint8 b = b.
Proof. intros H. unfold uint8. apply Z.mod_small. exact H. Qed.

(** The loop of line 181 never ends. *)
Lemma while_true_spins fuel w : while_ fuel (ret true) skip w = Spin w.
Proof. induction fuel as [|fuel IH]; [reflexivity | exact IH]. Qed.

Lemma SysTick_Handler_no_gpio fuel w :
  filter is_gpio_call (calls (world_of (SysTick_Handler fuel w))) =
  filter is_gpio_call (calls w).
Proof.
  destruct (Z.eq_dec (uint32 (ticks w + 1)) I2C_MASTER_SEND_TASK_MS) as [Hs | Hs].
  - pose proof (SysTick_Handler_send fuel w Hs) as O.
    destruct (SysTick_Handler fuel w) as [[] w' | w' | w'].
    + apply send_outcome_done in O as (k1 & k2 & k3 & _ & _ & _ & _ & ->).
      cbn [world_of]. rewrite calls_stage_done, !filter_app, !gpio_status_polls,
        gpio_fifo_polls.
      cbn. now rewrite app_nil_r.
    + apply send_outcome_spin in O as (_ & _ & _ & _ & l & Hl & _ & G & _).
      cbn [world_of]. rewrite Hl, filter_app. cbn. now rewrite G, app_nil_r.
    + destruct (send_outcome_not_halted _ _ _ O).
  - now rewrite SysTick_Handler_idle.
Qed.

(** * The claims *)

(** C1.  Starting from power-on (stored command [CMD_LED_LOW]), the
    commands handed to the bus by any number of timer interrupts alternate:
    the N-th one, counting from 1, is [CMD_LED_HIGH] for odd N and
    [CMD_LED_LOW] for even N.  This holds whether or not the run is still
    waiting in a send; and when all [n] invocations have returned, exactly
    [n / 500] commands have been sent. *)
Theorem sender_commands_alternate fuel n :
  (forall N c,
      nth_error (transmitted (calls (world_of (ticks_run n fuel power_on)))) N = Some c ->
      c = if Nat.odd (S N) then CMD_LED_HIGH else CMD_LED_LOW) /\
  (forall w,
      ticks_run n fuel power_on = Done tt w ->
      length (transmitted (calls w)) = (n / 500)%nat).
Proof.
  pose proof (ticks_run_power_on fuel n) as H. split.
  - intros N c Hc.
    destruct (ticks_run n fuel power_on) as [[] w | w | w]; [| | contradiction].
    + destruct H as (k & _ & _ & Ht & _). cbn [world_of] in Hc. rewrite Ht in Hc.
      exact (nth_error_commands k N c Hc).
    + destruct H as (k & _ & Ht). cbn [world_of] in Hc. rewrite Ht in Hc.
      exact (nth_error_commands k N c Hc).
  - intros w E. rewrite E in H. destruct H as (k & Hr & Hn & Ht & _).
    rewrite Ht, length_map, length_seq.
    unfold I2C_MASTER_SEND_TASK_MS in *.
    apply (Nat.div_unique n 500 k (Z.to_nat (ticks w))); lia.
Qed.

(** C3.  An invocation that reaches the threshold and returns has made
    exactly these calls, in this order: START to the slave address in write
    mode; status reads up to and including the first that shows the
    acknowledge flag; clearing that flag; transmitting the flipped command;
    status reads up to the next acknowledge; clearing the flag; FIFO looks
    up to the first that finds it empty; STOP.  On return the stored command
    is the flipped one and the tick counter is zero.  Such an invocation does
    return once the budget covers the three waits.  While it is still
    waiting, the command is already flipped, START is issued, STOP is not,
    and the counter is not yet reset. *)
Theorem send_sequence_in_order fuel w :
  uint32 (ticks w + 1) = I2C_MASTER_SEND_TASK_MS ->
  (forall w',
      SysTick_Handler fuel w = Done tt w' ->
      exists k1 k2 k3,
        first_after ack_received (now w) k1 /\
        first_after ack_received (now w + S k1) k2 /\
        first_after txfifo_empty (now w + S k1 + S k2) k3 /\
        calls w' =
          calls w ++
          [EvMasterStart I2C_MASTER_HW (I2C_SLAVE_SLAVE_ADDRESS bsp) XMC_I2C_CH_CMD_WRITE] ++
          status_polls (now w) (S k1) ++
          [EvClearStatusFlag I2C_MASTER_HW
             (uint32 (XMC_I2C_CH_STATUS_FLAG_ACK_RECEIVED bsp));
           EvMasterTransmit I2C_MASTER_HW (next_command (tx_master_send w))] ++
          status_polls (now w + S k1) (S k2) ++
          [EvClearStatusFlag I2C_MASTER_HW
             (uint32 (XMC_I2C_CH_STATUS_FLAG_ACK_RECEIVED bsp))] ++
          fifo_polls (now w + S k1 + S k2) (S k3) ++
          [EvMasterStop I2C_MASTER_HW] /\
        tx_master_send w' = next_command (tx_master_send w) /\
        ticks w' = 0) /\
  (forall k1 k2 k3,
      (k1 < fuel)%nat -> (k2 < fuel)%nat -> (k3 < fuel)%nat ->
      first_after ack_received (now w) k1 ->
      first_after ack_received (now w + S k1) k2 ->
      first_after txfifo_empty (now w + S k1 + S k2) k3 ->
      SysTick_Handler fuel w = Done tt (stage_done k1 k2 k3 w)) /\
  (forall w',
      SysTick_Handler fuel w = Spin w' ->
      tx_master_send w' = next_command (tx_master_send w) /\
      ticks w' = I2C_MASTER_SEND_TASK_MS /\
      exists l,
        calls w' = calls w ++
          EvMasterStart I2C_MASTER_HW (I2C_SLAVE_SLAVE_ADDRESS bsp) XMC_I2C_CH_CMD_WRITE :: l /\
        ~ In (EvMasterStop I2C_MASTER_HW) l).
Proof.
  intros Hs. pose proof (SysTick_Handler_send fuel w Hs) as O.
  split; [| split].
  - intros w' E. rewrite E in O.
    apply send_outcome_done in O as (k1 & k2 & k3 & _ & F1 & F2 & F3 & ->).
    exists k1, k2, k3. rewrite calls_stage_done. auto 10.
  - intros k1 k2 k3 L1 L2 L3 F1 F2 F3.
    now apply SysTick_Handler_completes.
  - intros w' E. rewrite E in O.
    apply send_outcome_spin in O as (Hc & Ht & _ & _ & l & Hl & Hn & _).
    split; [exact Hc |]. split; [exact Ht |]. exists l. auto.
Qed.

(** C4.  When a send completes the tick counter is exactly zero on return,
    however many reads the waits took.  From there the next 499 invocations
    only count, 1 up to 499, and the 500th issues the next START. *)
Theorem tick_counter_reset_after_send fuel w w' :
  uint32 (ticks w + 1) = I2C_MASTER_SEND_TASK_MS ->
  SysTick_Handler fuel w = Done tt w' ->
  ticks w' = 0 /\
  (forall fuel' i,
      (i <= 499)%nat ->
      ticks_run i fuel' w' = Done tt (set_ticks (Z.of_nat i) w')) /\
  (forall fuel', exists l,
      calls (world_of (ticks_run 500 fuel' w')) =
      calls w' ++
      EvMasterStart I2C_MASTER_HW (I2C_SLAVE_SLAVE_ADDRESS bsp) XMC_I2C_CH_CMD_WRITE :: l).
Proof.
  intros Hs E. pose proof (SysTick_Handler_send fuel w Hs) as O. rewrite E in O.
  apply send_outcome_done in O as (k1 & k2 & k3 & _ & _ & _ & _ & ->).
  apply counting_after_reset. reflexivity.
Qed.

(** C5.  An invocation whose incremented counter is not 500 returns having
    stored the incremented counter and nothing else: no call is made, no
    status register is read, the stored command is unchanged. *)
Theorem below_threshold_no_effect fuel w :
  uint32 (ticks w + 1) <> I2C_MASTER_SEND_TASK_MS ->
  SysTick_Handler fuel w = Done tt (set_ticks (uint32 (ticks w + 1)) w) /\
  calls (world_of (SysTick_Handler fuel w)) = calls w /\
  now (world_of (SysTick_Handler fuel w)) = now w /\
  tx_master_send (world_of (SysTick_Handler fuel w)) = tx_master_send w /\
  USER_LED (world_of (SysTick_Handler fuel w)) = USER_LED w.
Proof.
  intros H. rewrite (SysTick_Handler_idle fuel w H). repeat split.
Qed.

(** C7.  If no status read from now on shows the acknowledge flag, an
    invocation that reaches the threshold is still in its first wait loop
    whatever the budget: START and status reads are all it has done, no
    command is transmitted, no STOP issued, and the tick counter still holds
    500.  Conversely an invocation that returns has seen the acknowledge
    flag at two reads and then an empty FIFO at a later one. *)
Theorem no_ack_blocks_forever w :
  uint32 (ticks w + 1) = I2C_MASTER_SEND_TASK_MS ->
  ((forall t, (now w <= t)%nat -> ack_received t = false) ->
   forall fuel, exists w',
     SysTick_Handler fuel w = Spin w' /\
     calls w' =
       calls w ++
       EvMasterStart I2C_MASTER_HW (I2C_SLAVE_SLAVE_ADDRESS bsp) XMC_I2C_CH_CMD_WRITE
       :: status_polls (now w) fuel /\
     transmitted (calls w') = transmitted (calls w) /\
     ticks w' = I2C_MASTER_SEND_TASK_MS) /\
  (forall fuel w',
     SysTick_Handler fuel w = Done tt w' ->
     exists t1 t2 t3,
       (now w <= t1 < t2)%nat /\ (t2 < t3)%nat /\
       ack_received t1 = true /\ ack_received t2 = true /\
       txfifo_empty t3 = true).
Proof.
  intros Hs. split.
  - intros Hn fuel.
    destruct (SysTick_Handler_send fuel w Hs)
      as [N1 | k1 L1 [_ F1] _ | k1 k2 L1 _ [_ F1] _ _ | k1 k2 k3 L1 _ _ [_ F1] _ _];
      try (rewrite Hn in F1 by lia; discriminate).
    eexists. split; [reflexivity |].
    rewrite calls_polled_status, calls_stage_start, <- app_assoc.
    split; [reflexivity |]. split; [| reflexivity].
    rewrite !transmitted_app, transmitted_status_polls. cbn. now rewrite app_nil_r.
  - intros fuel w' E. pose proof (SysTick_Handler_send fuel w Hs) as O.
    rewrite E in O.
    apply send_outcome_done in O as (k1 & k2 & k3 & _ & [_ F1] & [_ F2] & [_ F3] & _).
    exists (now w + k1)%nat, (now w + S k1 + k2)%nat, (now w + S k1 + S k2 + k3)%nat.
    repeat split; try assumption; lia.
Qed.

(** C2.  A byte 0xAA delivered to the receiver drives the LED pin high, a
    byte 0x55 drives it low, and any other byte leaves the pin as it was:
    the handler returns having only read the receive buffer. *)
Theorem receiver_maps_byte_to_level b w :
  0 <= b < 256 ->
  exists w',
    I2C_SLAVE_RECEIVE_EVENT_HANDLER (deliver b w) = Done tt w' /\
    (b = 0xAA -> USER_LED w' = true) /\
    (b = 0x55 -> USER_LED w' = false) /\
    (b <> 0xAA -> b <> 0x55 ->
     USER_LED w' = USER_LED w /\
     w' = log (EvGetReceivedData I2C_SLAVE_HW b) (deliver b w)).
Proof.
  intros Hb. rewrite receive_run. cbv zeta.
  change (RBUF (deliver b w)) with b. rewrite (uint8_small b Hb).
  eexists. split; [reflexivity |]. split; [| split].
  - intros ->. reflexivity.
  - intros ->. reflexivity.
  - intros H1 H2.
    apply Z.eqb_neq in H1, H2. unfold CMD_LED_HIGH, CMD_LED_LOW.
    rewrite H1, H2. split; reflexivity.
Qed.

(** C6.  Delivering the same byte twice in a row leaves the LED pin at the
    same level after the second delivery as after the first.  For the two
    command bytes that level does not depend on the state the receiver
    started in. *)
Theorem receiver_idempotent b w :
  USER_LED (world_of (I2C_SLAVE_RECEIVE_EVENT_HANDLER
     (deliver b (world_of (I2C_SLAVE_RECEIVE_EVENT_HANDLER (deliver b w))))))
  = USER_LED (world_of (I2C_SLAVE_RECEIVE_EVENT_HANDLER (deliver b w))) /\
  (forall w0,
      uint8 b = CMD_LED_HIGH \/ uint8 b = CMD_LED_LOW ->
      USER_LED (world_of (I2C_SLAVE_RECEIVE_EVENT_HANDLER (deliver b w0)))
      = USER_LED (world_of (I2C_SLAVE_RECEIVE_EVENT_HANDLER (deliver b w)))).
Proof.
  split.
  - rewrite !receive_run. cbv zeta. cbn [world_of].
    change (RBUF (deliver b ?x)) with b.
    destruct (uint8 b =? CMD_LED_HIGH); [reflexivity |].
    destruct (uint8 b =? CMD_LED_LOW); reflexivity.
  - intros w0 H. rewrite !receive_run. cbv zeta. cbn [world_of].
    change (RBUF (deliver b ?x)) with b.
    destruct H as [-> | ->]; reflexivity.
Qed.

(** C8.  If [cybsp_init] does not return [CY_RSLT_SUCCESS], main stops in
    the assertion having called nothing but [cybsp_init]: the interrupt
    priority is not set, the receive interrupt not enabled, the system timer
    not started.  If it returns [CY_RSLT_SUCCESS], nothing stops main: it
    sets the priority, enables the interrupt, configures the system timer,
    and stays in its final loop. *)
Theorem main_init_failure_halts fuel w :
  (cybsp_init_result hw <> CY_RSLT_SUCCESS bsp ->
   main fuel w = Halted (log (EvCybspInit (cybsp_init_result hw)) w)) /\
  (cybsp_init_result hw = CY_RSLT_SUCCESS bsp ->
   main fuel w =
   Spin (set_calls
           (calls w ++
            [EvCybspInit (cybsp_init_result hw);
             EvGetPriorityGrouping (priority_grouping hw);
             EvSetPriority I2C_SLAVE_RECEIVE_EVENT_IRQN
               (NVIC_EncodePriority bsp (priority_grouping hw)
                  I2C_RECEIVE_EVENT_PRIORITY 0);
             EvEnableIRQ I2C_SLAVE_RECEIVE_EVENT_IRQN;
             EvSysTickConfig
               (uint32 (Z.quot (SystemCoreClock bsp) TICKS_PER_SECOND))])
           w)).
Proof.
  unfold main, cybsp_init, bind. cbv zeta. split; intros H.
  - apply Z.eqb_neq in H. rewrite H. reflexivity.
  - apply Z.eqb_eq in H. rewrite H. cbn [negb].
    unfold skip, ret, NVIC_GetPriorityGrouping, NVIC_SetPriority,
      NVIC_EnableIRQ, SysTick_Config, modify.
    cbv zeta. fold (@ret bool true). fold skip.
    rewrite while_true_spins.
    destruct w. unfold log, set_calls.
    cbn [file_ticks tx_master_send ticks USER_LED RBUF now calls].
    now rewrite <- !app_assoc.
Qed.

(** C9.  The receiver's result does not depend on the sender's stored
    command or tick counter, and it leaves both as they were; the sender's
    result does not depend on the LED pin, it leaves the pin as it was and
    makes no GPIO call. *)
Theorem sender_receiver_disjoint :
  (forall v, commutes (set_tx_master_send v) I2C_SLAVE_RECEIVE_EVENT_HANDLER) /\
  (forall v, commutes (set_ticks v) I2C_SLAVE_RECEIVE_EVENT_HANDLER) /\
  (forall b w,
      tx_master_send (world_of (I2C_SLAVE_RECEIVE_EVENT_HANDLER (deliver b w)))
      = tx_master_send w /\
      ticks (world_of (I2C_SLAVE_RECEIVE_EVENT_HANDLER (deliver b w))) = ticks w) /\
  (forall fuel v, commutes (set_USER_LED v) (SysTick_Handler fuel)) /\
  (forall fuel w,
      USER_LED (world_of (SysTick_Handler fuel w)) = USER_LED w /\
      filter is_gpio_call (calls (world_of (SysTick_Handler fuel w)))
      = filter is_gpio_call (calls w)).
Proof.
  split; [exact receive_commutes_tx_master_send |].
  split; [exact receive_commutes_ticks |].
  split; [| split; [intros fuel v; apply SysTick_Handler_commutes_USER_LED |]].
  - intros b w. split.
    + rewrite commutes_keeps_tx_master_send; [reflexivity |].
      apply receive_commutes_tx_master_send.
    + rewrite commutes_keeps_ticks; [reflexivity |].
      apply receive_commutes_ticks.
  - intros fuel w. split.
    + apply commutes_keeps_USER_LED, SysTick_Handler_commutes_USER_LED.
    + apply SysTick_Handler_no_gpio.
Qed.

(** C10.  The file-scope [ticks] of line 69 is zero in every reachable
    state, and no operation's result depends on it: [SysTick_Handler]
    counts in its own static [ticks], and neither the receiver nor main
    mentions the variable. *)
Theorem file_scope_ticks_unused :
  (forall w, reachable w -> file_ticks w = 0) /\
  (forall v fuel, commutes (set_file_ticks v) (SysTick_Handler fuel)) /\
  (forall v, commutes (set_file_ticks v) I2C_SLAVE_RECEIVE_EVENT_HANDLER) /\
  (forall v fuel, commutes (set_file_ticks v) (main fuel)).
Proof.
  split; [| split; [| split]].
  - intros w R. induction R as [| fuel w R IH | fuel w R IH | b w R IH].
    + reflexivity.
    + rewrite commutes_keeps_file_ticks; [exact IH |].
      apply main_commutes_file_ticks.
    + rewrite commutes_keeps_file_ticks; [exact IH |].
      apply SysTick_Handler_commutes_file_ticks.
    + rewrite commutes_keeps_file_ticks; [exact IH |].
      apply receive_commutes_file_ticks.
  - intros v fuel. apply SysTick_Handler_commutes_file_ticks.
  - exact receive_commutes_file_ticks.
  - intros v fuel. apply main_commutes_file_ticks.
Qed.

(** * Further properties of the handlers and main *)

(** ** The sender on responsive hardware *)

Lemma first_after_exists p D : forall t,
  (exists k, (k < D)%nat /\ p (t + k)%nat = true) ->
  exists k, (k < D)%nat /\ first_after p t k.
Proof.
  induction D as [|D IH]; intros t (k & Hk & Hp); [lia |].
  destruct (p t) eqn:E.
  - exists 0%nat. split; [lia | now apply first_after_0].
  - destruct k as [|k]; [rewrite Nat.add_0_r in Hp; congruence |].
    destruct (IH (S t)) as (j & Hj & Fj).
    + exists k. split; [lia |].
      now replace (S t + k)%nat with (t + S k)%nat by lia.
    + exists (S j). split; [lia | now apply first_after_S].
Qed.

Lemma SysTick_Handler_returns D fuel w :
  responsive D -> (D <= fuel)%nat ->
  exists w', SysTick_Handler fuel w = Done tt w'.
Proof.
  intros R L.
  destruct (Z.eq_dec (uint32 (ticks w + 1)) I2C_MASTER_SEND_TASK_MS) as [Hs | Hs].
  - destruct (first_after_exists _ D _ (proj1 (R (now w)))) as (k1 & L1 & F1).
    destruct (first_after_exists _ D _ (proj1 (R (now w + S k1)%nat)))
      as (k2 & L2 & F2).
    destruct (first_after_exists _ D _ (proj2 (R (now w + S k1 + S k2)%nat)))
      as (k3 & L3 & F3).
    exists (stage_done k1 k2 k3 w).
    apply SysTick_Handler_completes; try assumption; lia.
  - eexists. now apply SysTick_Handler_idle.
Qed.

(** X1.  On hardware that shows the acknowledge flag and an empty FIFO
    within [D] reads of any read, every invocation of the timer interrupt
    returns: a run of any length from any state returns, provided the
    budget of each wait loop is at least [D]. *)
Theorem sender_returns_on_responsive_hardware D fuel n w :
  responsive D -> (D <= fuel)%nat ->
  exists w', ticks_run n fuel w = Done tt w'.
Proof.
  intros R L. induction n as [|n IH].
  - exists w. reflexivity.
  - destruct IH as (w1 & E1). rewrite ticks_run_S, E1.
    exact (SysTick_Handler_returns D fuel w1 R L).
Qed.


(** X3.  After [n] invocations from power-on that have all returned, the
    tick counter holds [n mod 500] and the stored command is 0xAA when
    [n / 500] is odd and 0x55 when it is even. *)
Theorem sender_state_after_run fuel n w :
  ticks_run n fuel power_on = Done tt w ->
  ticks w = Z.of_nat (n mod 500) /\
  tx_master_send w = if Nat.odd (n / 500) then CMD_LED_HIGH else CMD_LED_LOW.
Proof.
  intros E. pose proof (ticks_run_power_on fuel n) as H. rewrite E in H.
  destruct H as (k & Hr & Hn & _ & Hc). unfold I2C_MASTER_SEND_TASK_MS in *.
  assert (Hk : k = (n / 500)%nat)
    by (apply (Nat.div_unique n 500 k (Z.to_nat (ticks w))); lia).
  assert (Hm : Z.to_nat (ticks w) = (n mod 500)%nat)
    by (apply (Nat.mod_unique n 500 k (Z.to_nat (ticks w))); lia).
  split; [rewrite <- Hm; lia | rewrite Hc, Hk; reflexivity].
Qed.

(** ** Bus transactions *)

Lemma count_app p l1 l2 : count p (l1 ++ l2) = (count p l1 + count p l2)%nat.
Proof. unfold count. now rewrite filter_app, length_app. Qed.

Lemma count_status_polls p t n :
  (forall v, p (EvGetStatusFlag I2C_MASTER_HW v) = false) ->
  count p (status_polls t n) = 0%nat.
Proof.
  intros H. revert t. induction n as [|n IH]; intros t; [reflexivity |].
  rewrite status_polls_S. unfold count in *. cbn [filter]. rewrite H. apply IH.
Qed.

Lemma count_fifo_polls p t n :
  (forall v, p (EvTXFIFO_IsEmpty I2C_MASTER_HW v) = false) ->
  count p (fifo_polls t n) = 0%nat.
Proof.
  intros H. revert t. induction n as [|n IH]; intros t; [reflexivity |].
  rewrite fifo_polls_S. unfold count in *. cbn [filter]. rewrite H. apply IH.
Qed.

Ltac count_calls :=
  rewrite ?count_app, ?count_status_polls, ?count_fifo_polls by reflexivity;
  cbn; lia.

Lemma SysTick_Handler_transactions fuel w :
  match SysTick_Handler fuel w with
  | Done _ w' =>
      (count is_start (calls w') + count is_stop (calls w)
       = count is_stop (calls w') + count is_start (calls w))%nat
  | Spin w' =>
      (count is_start (calls w') + count is_stop (calls w)
       = S (count is_stop (calls w') + count is_start (calls w)))%nat
  | Halted _ => False
  end.
Proof.
  destruct (Z.eq_dec (uint32 (ticks w + 1)) I2C_MASTER_SEND_TASK_MS) as [Hs | Hs].
  - destruct (SysTick_Handler_send fuel w Hs).
    + rewrite calls_polled_status, calls_stage_start. count_calls.
    + rewrite calls_polled_status, calls_stage_transmit. count_calls.
    + rewrite calls_polled_fifo, calls_stage_acked. count_calls.
    + rewrite calls_stage_done. count_calls.
  - rewrite SysTick_Handler_idle by exact Hs. cbn [calls set_ticks]. lia.
Qed.

(** X4.  Whenever a run of the timer interrupt has returned, every START it
    issued has been followed by its STOP: the run added as many STOPs as
    STARTs.  A run that is still waiting has exactly one transaction open.
    The sender never halts. *)
Theorem bus_transactions_balanced fuel n w :
  match ticks_run n fuel w with
  | Done _ w' =>
      (count is_start (calls w') + count is_stop (calls w)
       = count is_stop (calls w') + count is_start (calls w))%nat
  | Spin w' =>
      (count is_start (calls w') + count is_stop (calls w)
       = S (count is_stop (calls w') + count is_start (calls w)))%nat
  | Halted _ => False
  end.
Proof.
  induction n as [|n IH]; [cbn; lia |].
  rewrite ticks_run_S.
  destruct (ticks_run n fuel w) as [[] w1 | w1 | w1]; [| exact IH | exact IH].
  pose proof (SysTick_Handler_transactions fuel w1) as H.
  destruct (SysTick_Handler fuel w1) as [[] w2 | w2 | w2]; [lia | lia | exact H].
Qed.

(** ** The counter past the threshold *)

(** X5.  The threshold is tested with [==]: from a counter that is already
    at or above 500 the handler only counts, making no call and leaving the
    stored command alone, for as long as the counter stays below 2^32; the
    invocation that finds it at 2^32 - 1 wraps it to zero. *)
Theorem counter_past_threshold_only_counts fuel i : forall w,
  I2C_MASTER_SEND_TASK_MS <= ticks w ->
  ticks w + Z.of_nat i < 2 ^ 32 ->
  ticks_run i fuel w = Done tt (set_ticks (ticks w + Z.of_nat i) w) /\
  (ticks w + Z.of_nat i = 2 ^ 32 - 1 ->
   ticks_run (S i) fuel w = Done tt (set_ticks 0 w)).
Proof.
  unfold I2C_MASTER_SEND_TASK_MS. change (2 ^ 32) with 4294967296.
  induction i as [|i IH]; intros w H0 H1.
  - assert (E : ticks_run 0 fuel w = Done tt (set_ticks (ticks w + Z.of_nat 0) w))
      by (cbn; rewrite Z.add_0_r; now destruct w).
    split; [exact E |]. intros H2. rewrite ticks_run_S, E.
    rewrite SysTick_Handler_idle; cbn [ticks set_ticks]; rewrite H2.
    + now destruct w.
    + vm_compute. discriminate.
  - destruct (IH w H0) as [E _]; [lia |].
    assert (Hu : uint32 (ticks w + Z.of_nat i + 1) = ticks w + Z.of_nat (S i)).
    { rewrite uint32_small; [lia |]. change (2 ^ 32) with 4294967296. lia. }
    assert (E' : ticks_run (S i) fuel w
                 = Done tt (set_ticks (ticks w + Z.of_nat (S i)) w)).
    { rewrite ticks_run_S, E.
      rewrite SysTick_Handler_idle; cbn [ticks set_ticks]; rewrite Hu.
      - now destruct w.
      - unfold I2C_MASTER_SEND_TASK_MS. lia. }
    split; [exact E' |]. intros H2. rewrite ticks_run_S, E'.
    rewrite SysTick_Handler_idle; cbn [ticks set_ticks]; rewrite H2.
    + now destruct w.
    + vm_compute. discriminate.
Qed.

(** ** A stored command the switch has no case for *)

Lemma SysTick_Handler_stored_command fuel w :
  tx_master_send (world_of (SysTick_Handler fuel w)) = tx_master_send w /\
   transmitted (calls (world_of (SysTick_Handler fuel w))) = transmitted (calls w)
  \/
  tx_master_send (world_of (SysTick_Handler fuel w)) = next_command (tx_master_send w) /\
   (transmitted (calls (world_of (SysTick_Handler fuel w))) = transmitted (calls w) \/
    transmitted (calls (world_of (SysTick_Handler fuel w)))
    = transmitted (calls w) ++ [next_command (tx_master_send w)]).
Proof.
  destruct (Z.eq_dec (uint32 (ticks w + 1)) I2C_MASTER_SEND_TASK_MS) as [Hs | Hs].
  - right. pose proof (SysTick_Handler_send fuel w Hs) as O.
    destruct (SysTick_Handler fuel w) as [[] w' | w' | w']; cbn [world_of].
    + apply send_outcome_done in O as (k1 & k2 & k3 & _ & _ & _ & _ & ->).
      split; [reflexivity |]. right. apply transmitted_stage_done.
    + apply send_outcome_spin in O as (Hc & _ & _ & _ & l & Hl & _ & _ & T).
      split; [exact Hc |]. rewrite Hl, transmitted_app. cbn [transmitted].
      destruct T as [-> | ->]; [left; apply app_nil_r | right; reflexivity].
    + destruct (send_outcome_not_halted _ _ _ O).
  - left. rewrite SysTick_Handler_idle by exact Hs. split; reflexivity.
Qed.

Lemma next_command_other c :
  c <> CMD_LED_LOW -> c <> CMD_LED_HIGH -> next_command c = c.
Proof.
  intros H1 H2. unfold next_command.
  apply Z.eqb_neq in H1, H2. now rewrite H1, H2.
Qed.

(** X6.  The switch of lines 96-108 has no default case: a stored command
    that is neither 0x55 nor 0xAA is never repaired.  Through any run of the
    timer interrupt it stays as it is, and every byte the run transmits is
    that same byte. *)
Theorem illegal_stored_command_persists fuel n w :
  tx_master_send w <> CMD_LED_LOW ->
  tx_master_send w <> CMD_LED_HIGH ->
  tx_master_send (world_of (ticks_run n fuel w)) = tx_master_send w /\
  exists m,
    transmitted (calls (world_of (ticks_run n fuel w)))
    = transmitted (calls w) ++ repeat (tx_master_send w) m.
Proof.
  intros H1 H2. induction n as [|n IH].
  - split; [reflexivity |]. exists 0%nat. cbn. now rewrite app_nil_r.
  - rewrite ticks_run_S.
    destruct (ticks_run n fuel w) as [[] w1 | w1 | w1]; cbn [world_of] in *;
      [| exact IH | exact IH].
    destruct IH as (Hc & m & Ht).
    pose proof (next_command_other _ H1 H2) as Hn. rewrite <- Hc in Hn.
    destruct (SysTick_Handler_stored_command fuel w1) as [[C T] | [C T]].
    + split; [congruence |]. exists m. congruence.
    + rewrite Hn in C, T. split; [congruence |].
      destruct T as [T | T].
      * exists m. congruence.
      * exists (S m). rewrite T, Ht, Hc, <- app_assoc. f_equal.
        symmetry. apply repeat_cons.
Qed.

(** ** The receiver over a sequence of bytes *)

Lemma receive_all_cons b bs w :
  receive_all (b :: bs) w =
  receive_all bs (world_of (I2C_SLAVE_RECEIVE_EVENT_HANDLER (deliver b w))).
Proof. cbn [receive_all]. unfold bind. now rewrite receive_run. Qed.

Lemma receive_all_app bs1 bs2 : forall w,
  receive_all (bs1 ++ bs2) w = receive_all bs2 (world_of (receive_all bs1 w)).
Proof.
  induction bs1 as [|b bs1 IH]; intros w; [reflexivity |].
  cbn [app]. rewrite !receive_all_cons. apply IH.
Qed.

Lemma receive_all_returns bs : forall w, exists w', receive_all bs w = Done tt w'.
Proof.
  induction bs as [|b bs IH]; intros w; [now exists w |].
  rewrite receive_all_cons. apply IH.
Qed.

Lemma receive_level b w :
  USER_LED (world_of (I2C_SLAVE_RECEIVE_EVENT_HANDLER (deliver b w))) =
  if uint8 b =? CMD_LED_HIGH then true
  else if uint8 b =? CMD_LED_LOW then false
  else USER_LED w.
Proof.
  rewrite receive_run. cbv zeta. cbn [world_of].
  replace (RBUF (deliver b w)) with b by reflexivity.
  destruct (uint8 b =? CMD_LED_HIGH); [reflexivity |].
  destruct (uint8 b =? CMD_LED_LOW); reflexivity.
Qed.

Lemma receive_strays bs : forall w,
  Forall (fun b => is_command b = false) bs ->
  USER_LED (world_of (receive_all bs w)) = USER_LED w.
Proof.
  induction bs as [|b bs IH]; intros w H; [reflexivity |].
  inversion H as [| ? ? Hb Hbs]; subst.
  rewrite receive_all_cons, (IH _ Hbs), receive_level.
  unfold is_command in Hb. apply orb_false_iff in Hb as [-> ->]. reflexivity.
Qed.

Lemma receive_last_command pre c post w :
  is_command c = true ->
  Forall (fun b => is_command b = false) post ->
  USER_LED (world_of (receive_all (pre ++ c :: post) w)) = (uint8 c =? CMD_LED_HIGH).
Proof.
  intros Hc Hp.
  rewrite receive_all_app, receive_all_cons, (receive_strays _ _ Hp), receive_level.
  unfold is_command in Hc.
  destruct (uint8 c =? CMD_LED_HIGH); [reflexivity |].
  cbn in Hc. now rewrite Hc.
Qed.

(** X7.  Over any sequence of received bytes the receive interrupt always
    returns, and the LED shows the last command in the sequence: high if the
    last byte that is 0xAA or 0x55 is 0xAA, low if it is 0x55, whatever
    other bytes come before, between or after.  A sequence with no command
    byte leaves the LED as it was. *)
Theorem led_follows_last_command w :
  (forall bs, exists w', receive_all bs w = Done tt w') /\
  (forall pre c post,
      is_command c = true ->
      Forall (fun b => is_command b = false) post ->
      USER_LED (world_of (receive_all (pre ++ c :: post) w))
      = (uint8 c =? CMD_LED_HIGH)) /\
  (forall bs,
      Forall (fun b => is_command b = false) bs ->
      USER_LED (world_of (receive_all bs w)) = USER_LED w).
Proof.
  split; [| split].
  - intros bs. apply receive_all_returns.
  - intros pre c post. apply receive_last_command.
  - intros bs. apply receive_strays.
Qed.

(** X8.  Sender and receiver together: when the bytes transmitted by [n]
    returned timer interrupts from power-on, [n] at least 500, are delivered
    in order to the receiver, the LED ends up high if the number of sends
    [n / 500] is odd and low if it is even, whatever state the receiver
    started in. *)
Theorem led_toggles_with_each_send fuel n w w0 :
  ticks_run n fuel power_on = Done tt w ->
  (500 <= n)%nat ->
  USER_LED (world_of (receive_all (transmitted (calls w)) w0)) = Nat.odd (n / 500).
Proof.
  intros E L. pose proof (ticks_run_power_on fuel n) as H. rewrite E in H.
  destruct H as (k & Hr & Hn & Ht & _). unfold I2C_MASTER_SEND_TASK_MS in *.
  assert (Hk : k = (n / 500)%nat)
    by (apply (Nat.div_unique n 500 k (Z.to_nat (ticks w))); lia).
  rewrite <- Hk, Ht. destruct k as [|j]; [lia |].
  rewrite commands_snoc, receive_last_command.
  - unfold command_no. destruct (Nat.odd (S j)); reflexivity.
  - unfold command_no. destruct (Nat.odd (S j)); reflexivity.
  - constructor.
Qed.

(** ** main *)



End Program.

(** * The model at work *)

(** The first send on prompt hardware: the 500th tick after power-on
    transmits 0xAA and leaves the counter at zero. *)
Example first_send_prompt :
  ticks_run example_platform prompt_hw 500 1 power_on =
  Done tt
    (mkWorld 0 0xAA 0 false 0 3%nat
       [EvMasterStart I2C_MASTER_HW 0x60 XMC_I2C_CH_CMD_WRITE;
        EvGetStatusFlag I2C_MASTER_HW 0x200;
        EvClearStatusFlag I2C_MASTER_HW 0x200;
        EvMasterTransmit I2C_MASTER_HW 0xAA;
        EvGetStatusFlag I2C_MASTER_HW 0x200;
        EvClearStatusFlag I2C_MASTER_HW 0x200;
        EvTXFIFO_IsEmpty I2C_MASTER_HW true;
        EvMasterStop I2C_MASTER_HW]).
Proof. vm_compute. reflexivity. Qed.

(** Tick 1000 transmits 0x55, tick 1500 transmits 0xAA again. *)
Example three_sends_slow :
  transmitted (calls (world_of (ticks_run example_platform slow_hw 1500 3 power_on)))
  = [0xAA; 0x55; 0xAA].
Proof. vm_compute. reflexivity. Qed.

(** With a mute slave the first send never gets past its first wait. *)
Example mute_slave_blocks :
  ticks_run example_platform mute_hw 500 4 power_on =
  Spin
    (mkWorld 0 0xAA 500 false 0 4%nat
       [EvMasterStart I2C_MASTER_HW 0x60 XMC_I2C_CH_CMD_WRITE;
        EvGetStatusFlag I2C_MASTER_HW 0;
        EvGetStatusFlag I2C_MASTER_HW 0;
        EvGetStatusFlag I2C_MASTER_HW 0;
        EvGetStatusFlag I2C_MASTER_HW 0]).
Proof. vm_compute. reflexivity. Qed.

(** The receiver on the two commands and on a stray byte. *)
Example receive_high :
  USER_LED (world_of (I2C_SLAVE_RECEIVE_EVENT_HANDLER (deliver 0xAA power_on))) = true.
Proof. reflexivity. Qed.

Example receive_low :
  USER_LED (world_of (I2C_SLAVE_RECEIVE_EVENT_HANDLER
                        (deliver 0x55 (set_USER_LED true power_on)))) = false.
Proof. reflexivity. Qed.

Example receive_stray :
  USER_LED (world_of (I2C_SLAVE_RECEIVE_EVENT_HANDLER
                        (deliver 0x00 (set_USER_LED true power_on)))) = true.
Proof. reflexivity. Qed.

(** * The claims at concrete inputs *)

Ltac show_first_after :=
  split; [intros i Hi; repeat (destruct i as [|i]; [reflexivity |]); lia
         | reflexivity].

Lemma sender_commands_alternate_witness :
  0x55 = (if Nat.odd 2 then CMD_LED_HIGH else CMD_LED_LOW) /\
  length (transmitted
            (calls (world_of (ticks_run example_platform slow_hw 1000 3 power_on))))
  = (1000 / 500)%nat.
Proof.
  destruct (sender_commands_alternate example_platform slow_hw 3 1000) as [H1 H2].
  split.
  - apply (H1 1%nat 0x55). vm_compute. reflexivity.
  - apply (H2 (world_of (ticks_run example_platform slow_hw 1000 3 power_on))).
    vm_compute. reflexivity.
Defined.

Lemma receiver_maps_byte_to_level_witness :
  0 <= 0xAA < 256 /\
  exists w',
    I2C_SLAVE_RECEIVE_EVENT_HANDLER (deliver 0xAA power_on) = Done tt w' /\
    USER_LED w' = true.
Proof.
  assert (H : 0 <= 0xAA < 256) by lia.
  split; [exact H |].
  destruct (receiver_maps_byte_to_level 0xAA power_on H) as (w' & E & Hhigh & _).
  exists w'. split; [exact E | apply Hhigh; reflexivity].
Defined.

Lemma send_sequence_in_order_witness :
  uint32 (ticks before_send + 1) = I2C_MASTER_SEND_TASK_MS /\
  SysTick_Handler example_platform slow_hw 3 before_send =
  Done tt (stage_done example_platform slow_hw 2 2 2 before_send).
Proof.
  assert (H : uint32 (ticks before_send + 1) = I2C_MASTER_SEND_TASK_MS)
    by reflexivity.
  split; [exact H |].
  apply (proj1 (proj2 (send_sequence_in_order example_platform slow_hw 3 before_send H)));
    try lia; show_first_after.
Defined.

Lemma tick_counter_reset_after_send_witness :
  uint32 (ticks before_send + 1) = I2C_MASTER_SEND_TASK_MS /\
  SysTick_Handler example_platform slow_hw 3 before_send =
  Done tt (stage_done example_platform slow_hw 2 2 2 before_send) /\
  ticks (stage_done example_platform slow_hw 2 2 2 before_send) = 0.
Proof.
  assert (H : uint32 (ticks before_send + 1) = I2C_MASTER_SEND_TASK_MS)
    by reflexivity.
  assert (E : SysTick_Handler example_platform slow_hw 3 before_send =
              Done tt (stage_done example_platform slow_hw 2 2 2 before_send))
    by (vm_compute; reflexivity).
  split; [exact H |]. split; [exact E |].
  exact (proj1 (tick_counter_reset_after_send example_platform slow_hw 3
                  before_send _ H E)).
Defined.

Lemma below_threshold_no_effect_witness :
  uint32 (ticks power_on + 1) <> I2C_MASTER_SEND_TASK_MS /\
  SysTick_Handler example_platform prompt_hw 1 power_on =
  Done tt (set_ticks (uint32 (ticks power_on + 1)) power_on).
Proof.
  assert (H : uint32 (ticks power_on + 1) <> I2C_MASTER_SEND_TASK_MS)
    by (vm_compute; discriminate).
  split; [exact H |].
  exact (proj1 (below_threshold_no_effect example_platform prompt_hw 1 power_on H)).
Defined.

Lemma receiver_idempotent_witness :
  (uint8 0xAA = CMD_LED_HIGH \/ uint8 0xAA = CMD_LED_LOW) /\
  USER_LED (world_of (I2C_SLAVE_RECEIVE_EVENT_HANDLER
                        (deliver 0xAA (set_USER_LED true power_on))))
  = USER_LED (world_of (I2C_SLAVE_RECEIVE_EVENT_HANDLER (deliver 0xAA power_on))).
Proof.
  assert (H : uint8 0xAA = CMD_LED_HIGH \/ uint8 0xAA = CMD_LED_LOW)
    by (left; reflexivity).
  split; [exact H |].
  exact (proj2 (receiver_idempotent 0xAA power_on) (set_USER_LED true power_on) H).
Defined.

Lemma no_ack_blocks_forever_witness :
  uint32 (ticks before_send + 1) = I2C_MASTER_SEND_TASK_MS /\
  (forall t, (now before_send <= t)%nat ->
             ack_received example_platform mute_hw t = false) /\
  (exists w',
      SysTick_Handler example_platform mute_hw 7 before_send = Spin w' /\
      ticks w' = I2C_MASTER_SEND_TASK_MS) /\
  (exists t1 t2 t3,
      (now before_send <= t1 < t2)%nat /\ (t2 < t3)%nat /\
      ack_received example_platform slow_hw t1 = true /\
      ack_received example_platform slow_hw t2 = true /\
      txfifo_empty slow_hw t3 = true).
Proof.
  assert (H : uint32 (ticks before_send + 1) = I2C_MASTER_SEND_TASK_MS)
    by reflexivity.
  assert (N : forall t, (now before_send <= t)%nat ->
                        ack_received example_platform mute_hw t = false)
    by (intros t _; reflexivity).
  split; [exact H |]. split; [exact N |]. split.
  - destruct (proj1 (no_ack_blocks_forever example_platform mute_hw before_send H)
                N 7%nat) as (w' & E & _ & _ & T).
    exists w'. split; [exact E | exact T].
  - apply (proj2 (no_ack_blocks_forever example_platform slow_hw before_send H)
             3%nat (stage_done example_platform slow_hw 2 2 2 before_send)).
    vm_compute. reflexivity.
Defined.

Lemma main_init_failure_halts_witness :
  cybsp_init_result broken_board <> CY_RSLT_SUCCESS example_platform /\
  main example_platform broken_board 5 power_on =
  Halted (log (EvCybspInit 1) power_on) /\
  cybsp_init_result prompt_hw = CY_RSLT_SUCCESS example_platform /\
  main example_platform prompt_hw 5 power_on =
  Spin (set_calls
          [EvCybspInit 0; EvGetPriorityGrouping 0;
           EvSetPriority I2C_SLAVE_RECEIVE_EVENT_IRQN 63;
           EvEnableIRQ I2C_SLAVE_RECEIVE_EVENT_IRQN;
           EvSysTickConfig 120000] power_on).
Proof.
  assert (F : cybsp_init_result broken_board <> CY_RSLT_SUCCESS example_platform)
    by (vm_compute; discriminate).
  assert (S : cybsp_init_result prompt_hw = CY_RSLT_SUCCESS example_platform)
    by reflexivity.
  split; [exact F |]. split; [| split; [exact S |]].
  - exact (proj1 (main_init_failure_halts example_platform broken_board 5 power_on) F).
  - exact (proj2 (main_init_failure_halts example_platform prompt_hw 5 power_on) S).
Defined.

Lemma file_scope_ticks_unused_witness :
  reachable example_platform slow_hw
    (world_of (SysTick_Handler example_platform slow_hw 3 power_on)) /\
  file_ticks (world_of (SysTick_Handler example_platform slow_hw 3 power_on)) = 0.
Proof.
  assert (R : reachable example_platform slow_hw
                (world_of (SysTick_Handler example_platform slow_hw 3 power_on)))
    by (apply reach_SysTick, reach_power_on).
  split; [exact R |].
  exact (proj1 (file_scope_ticks_unused example_platform slow_hw) _ R).
Defined.

(** * The further properties at concrete inputs *)

Lemma slow_hw_responsive : responsive example_platform slow_hw 3.
Proof.
  assert (H : forall t, exists k, (k < 3)%nat /\ ((t + k) mod 3 =? 2)%nat = true).
  { intros t. pose proof (Nat.mod_upper_bound t 3) as U.
    pose proof (Nat.div_mod_eq t 3) as Q.
    exists (2 - t mod 3)%nat. split; [lia |].
    apply Nat.eqb_eq. symmetry.
    apply (Nat.mod_unique _ 3 (t / 3) 2); lia. }
  intros t. destruct (H t) as (k & Hk & E).
  split; exists k; (split; [exact Hk |]).
  - unfold ack_received, slow_hw, example_platform.
    cbn [PSR_IICMode XMC_I2C_CH_STATUS_FLAG_ACK_RECEIVED]. now rewrite E.
  - unfold txfifo_empty, slow_hw. cbn [TXFIFO_empty]. exact E.
Qed.

Lemma sender_returns_on_responsive_hardware_witness :
  responsive example_platform slow_hw 3 /\ (3 <= 3)%nat /\
  exists w', ticks_run example_platform slow_hw 1200 3 power_on = Done tt w'.
Proof.
  assert (L : (3 <= 3)%nat) by lia.
  split; [exact slow_hw_responsive |]. split; [exact L |].
  exact (sender_returns_on_responsive_hardware example_platform slow_hw 3 3 1200
           power_on slow_hw_responsive L).
Defined.


Lemma sender_state_after_run_witness :
  ticks (world_of (ticks_run example_platform slow_hw 1234 3 power_on))
  = Z.of_nat (1234 mod 500) /\
  tx_master_send (world_of (ticks_run example_platform slow_hw 1234 3 power_on))
  = if Nat.odd (1234 / 500) then CMD_LED_HIGH else CMD_LED_LOW.
Proof.
  apply (sender_state_after_run example_platform slow_hw 3 1234).
  vm_compute. reflexivity.
Defined.

Lemma counter_past_threshold_only_counts_witness :
  ticks_run example_platform prompt_hw 3 1 (set_ticks 500 power_on)
  = Done tt (set_ticks 503 power_on) /\
  ticks_run example_platform prompt_hw 1 1 (set_ticks (2 ^ 32 - 1) power_on)
  = Done tt (set_ticks 0 power_on).
Proof.
  split.
  - apply (counter_past_threshold_only_counts example_platform prompt_hw 1 3
             (set_ticks 500 power_on)); vm_compute; [discriminate | reflexivity].
  - apply (counter_past_threshold_only_counts example_platform prompt_hw 1 0
             (set_ticks (2 ^ 32 - 1) power_on));
      vm_compute; [discriminate | reflexivity | reflexivity].
Defined.

Lemma illegal_stored_command_persists_witness :
  tx_master_send
    (world_of (ticks_run example_platform slow_hw 1001 3
                 (set_tx_master_send 0x11 power_on))) = 0x11.
Proof.
  apply (illegal_stored_command_persists example_platform slow_hw 3 1001
           (set_tx_master_send 0x11 power_on)); vm_compute; discriminate.
Defined.

Lemma led_follows_last_command_witness :
  USER_LED (world_of (receive_all ([0x55; 7] ++ 0xAA :: [3; 1]) power_on)) = true.
Proof.
  apply (proj1 (proj2 (led_follows_last_command power_on)) [0x55; 7] 0xAA [3; 1]).
  - reflexivity.
  - repeat constructor.
Defined.

Lemma led_toggles_with_each_send_witness :
  USER_LED
    (world_of
       (receive_all
          (transmitted
             (calls (world_of (ticks_run example_platform slow_hw 1500 3 power_on))))
          power_on))
  = Nat.odd (1500 / 500).
Proof.
  apply (led_toggles_with_each_send example_platform slow_hw 3 1500).
  - vm_compute. reflexivity.
  - lia.
Defined.
